(** * DataDepth: CSV profiler, schema validator and row synthesizer

    A shallow embedding of [datadepth/validators.py], [datadepth/profiler.py],
    [datadepth/synthesizer.py] and [datadepth/generator.py].

    Conventions of the embedding.
    - A Python value that travels through a schema document is a [json] value;
      a dict is an association list in insertion order with unique keys,
      looked up by key.
    - A number is an exact rational; the float [nan] is a value of its own
      ([JNaN] in documents, [None] in [pyfloat]).  The two infinities are
      outside the embedding, and so is the rounding of doubles in the numeric
      sampler and in the statistics; where rounding decides a result, in the
      [np.linspace] behind [pd.date_range], the rounded values are a
      parameter.
    - A raising computation returns [Raise e]; the two global random
      generators (numpy's and the [random] module's) are an explicit state.
    - pandas' parsers and its seeded sampler are parameters, collected in the
      record [Pandas]; what differs between versions of pandas (a range of
      dates with a bound that is no timestamp, the text of a missing cell)
      is a parameter too. *)

From Stdlib Require Import List String Ascii Bool Arith ZArith QArith Qround Qabs Lia Lqa.
From Stdlib Require Import DecimalString DecimalNat FinFun.
Import ListNotations.

#[local] Set Warnings "-register-all".

Local Close Scope Q_scope.
Local Open Scope string_scope.

(** ** Python values and exceptions *)

Inductive json : Type :=
| JNull
| JBool (b : bool)
| JNum (q : Q)
| JNaN
| JStr (s : string)
| JArr (l : list json)
| JObj (kv : list (string * json)).

Inductive exn : Type :=
| KeyError
| TypeError
| ValueError
| IndexError
| AttributeError.

Inductive exc (A : Type) : Type :=
| Ok (a : A)
| Raise (e : exn).

Arguments Ok {A} a.
Arguments Raise {A} e.

Definition bind {A B : Type} (m : exc A) (k : A -> exc B) : exc B :=
  match m with
  | Ok a => k a
  | Raise e => Raise e
  end.

Notation "x <- m ;; k" := (bind m (fun x => k))
  (at level 61, m at next level, right associativity).

(** [for x in xs: body x], where the body may raise. *)
Fixpoint for_each {A : Type} (body : A -> exc unit) (xs : list A) : exc unit :=
  match xs with
  | [] => Ok tt
  | x :: rest => _ <- body x ;; for_each body rest
  end.

(** [[f x for x in xs]], where [f] may raise. *)
Fixpoint map_exc {A B : Type} (f : A -> exc B) (xs : list A) : exc (list B) :=
  match xs with
  | [] => Ok []
  | x :: rest => y <- f x ;; ys <- map_exc f rest ;; Ok (y :: ys)
  end.

(** ** Dictionaries *)

Module Dict.

Fixpoint get {V : Type} (k : string) (d : list (string * V)) : option V :=
  match d with
  | [] => None
  | (k', v) :: rest => if String.eqb k k' then Some v else get k rest
  end.

(** [k in d] *)
Definition mem {V : Type} (k : string) (d : list (string * V)) : bool :=
  match get k d with
  | Some _ => true
  | None => false
  end.

(** [d[k]] *)
Definition item {V : Type} (k : string) (d : list (string * V)) : exc V :=
  match get k d with
  | Some v => Ok v
  | None => Raise KeyError
  end.

End Dict.

(** [v[k]] for a string key [k]: a dict is looked up, a string or a list
    refuses a string index, anything else is not subscriptable. *)
Definition subscript (v : json) (k : string) : exc json :=
  match v with
  | JObj kv => Dict.item k kv
  | _ => Raise TypeError
  end.

(** The values a [for] loop visits.  Iterating a dict yields its keys and
    iterating a string its characters. *)
Definition chars (s : string) : list json :=
  map (fun c => JStr (String c EmptyString)) (list_ascii_of_string s).

Definition iterate (v : json) : exc (list json) :=
  match v with
  | JArr l => Ok l
  | JObj kv => Ok (map (fun p => JStr (fst p)) kv)
  | JStr s => Ok (chars s)
  | _ => Raise TypeError
  end.

(** ** validators.py *)

Module Validators.

(** [{"name", "type"} <= col.keys()] *)
Definition has_name_and_type (col : json) : exc bool :=
  match col with
  | JObj kv => Ok (Dict.mem "name" kv && Dict.mem "type" kv)
  | _ => Raise AttributeError
  end.

Definition check_column (col : json) : exc unit :=
  ok <- has_name_and_type col ;;
  if ok then Ok tt else Raise ValueError.

(** The function only reads its argument; the document is threaded through
    so that its value after the call is part of the result. *)
Definition validate_schema (s : list (string * json))
  : list (string * json) * exc unit :=
  (s,
   if negb (Dict.mem "columns" s) then Raise ValueError
   else
     cols <- Dict.item "columns" s ;;
     l <- iterate cols ;;
     for_each check_column l).

End Validators.

(** ** Numbers *)

(** A Python or numpy float: a rational, or [nan] ([None]). *)
Definition pyfloat : Type := option Q.

Definition Qltb (x y : Q) : bool :=
  match (x ?= y)%Q with
  | Lt => true
  | _ => false
  end.

Definition bool_Q (b : bool) : Q := if b then 1%Q else 0%Q.

(** The operand of an arithmetic operator: numbers and bools qualify. *)
Definition as_float (v : json) : exc pyfloat :=
  match v with
  | JNum q => Ok (Some q)
  | JBool b => Ok (Some (bool_Q b))
  | JNaN => Ok None
  | _ => Raise TypeError
  end.

Definition fsub (a b : pyfloat) : pyfloat :=
  match a, b with
  | Some x, Some y => Some (x - y)%Q
  | _, _ => None
  end.

Definition fdiv (a b : pyfloat) : pyfloat :=
  match a, b with
  | Some x, Some y => Some (x / y)%Q
  | _, _ => None
  end.

(** The builtin [max(a, b)]: [b] replaces [a] only when [b > a] holds, and a
    comparison with [nan] does not hold. *)
Definition py_max (a b : pyfloat) : pyfloat :=
  match a, b with
  | Some x, Some y => if Qltb x y then b else a
  | _, _ => a
  end.

(** [np.maximum] and [np.minimum] propagate [nan]. *)
Definition np_maximum (a b : pyfloat) : pyfloat :=
  match a, b with
  | Some x, Some y => if Qltb x y then b else a
  | _, _ => None
  end.

Definition np_minimum (a b : pyfloat) : pyfloat :=
  match a, b with
  | Some x, Some y => if Qltb y x then b else a
  | _, _ => None
  end.

(** [np.clip(x, lo, hi)] is [np.minimum(np.maximum(x, lo), hi)]. *)
Definition np_clip (lo hi x : pyfloat) : pyfloat :=
  np_minimum (np_maximum x lo) hi.

(** The literal [1e-9]. *)
Definition eps : Q := (1 # 1000000000)%Q.

(** ** The random generators *)

(** The state of the two process-wide generators, as the draws still to
    come: [gauss] are the standard normal deviates of numpy's generator,
    [word53] the 53-bit integers from which [random.random()] makes its
    floats. *)
Record Rng : Type := mkRng {
  gauss : nat -> Q;
  word53 : nat -> N
}.

Definition two53 : N := 9007199254740992%N.

(** The [i]-th coming value of [random.random()], in [[0, 1)]. *)
Definition py_random (g : Rng) (i : nat) : Q :=
  (Z.of_N (word53 g i mod two53) # 9007199254740992)%Q.

Definition skip_gauss (n : nat) (g : Rng) : Rng :=
  mkRng (fun i => gauss g (n + i)) (word53 g).

Definition skip_random (n : nat) (g : Rng) : Rng :=
  mkRng (gauss g) (fun i => word53 g (n + i)).

(** A computation that may raise and that advances the generators. *)
Definition rand (A : Type) : Type := Rng -> exc A * Rng.

Definition ret {A : Type} (a : A) : rand A := fun g => (Ok a, g).

Definition throw {A : Type} (e : exn) : rand A := fun g => (Raise e, g).

Definition lift {A : Type} (m : exc A) : rand A := fun g => (m, g).

Definition rbind {A B : Type} (m : rand A) (k : A -> rand B) : rand B :=
  fun g =>
    match m g with
    | (Ok a, g') => k a g'
    | (Raise e, g') => (Raise e, g')
    end.

Notation "x <~ m ;; k" := (rbind m (fun x => k))
  (at level 61, m at next level, right associativity).

(** [np.random.normal(loc, scale, n)]: [loc + scale * z] for each of the next
    [n] standard normal deviates [z]; a negative [scale] is refused. *)
Definition np_random_normal (loc scale : pyfloat) (n : nat) : rand (list pyfloat) :=
  fun g =>
    match scale with
    | Some s =>
        if Qltb s 0%Q then (Raise ValueError, g)
        else
          (Ok (map (fun i => match loc with
                             | Some m => Some (m + s * gauss g i)%Q
                             | None => None
                             end) (seq 0 n)),
           skip_gauss n g)
    | None => (Ok (repeat None n), skip_gauss n g)
    end.

(** The index [floor(random() * k)] that the [i]-th coming draw selects in a
    population of [k] elements. *)
Definition choice_index (g : Rng) (k i : nat) : nat :=
  Z.to_nat (Qfloor (py_random g i * inject_Z (Z.of_nat k))%Q).

(** [random.choices(population, k=n)]: [n] independent picks
    [population[floor(random() * len(population))]].  A pick fails only in
    an empty population, hence at the first draw, which is consumed. *)
Definition random_choices {A : Type} (population : list A) (n : nat)
  : rand (list A) :=
  fun g =>
    match map_exc (fun i =>
                     match nth_error population
                             (choice_index g (List.length population) i) with
                     | Some x => Ok x
                     | None => Raise IndexError
                     end) (seq 0 n) with
    | Ok l => (Ok l, skip_random n g)
    | Raise e => (Raise e, skip_random 1 g)
    end.

(** ** Dates *)

(** An instant is a count of nanoseconds since 1970-01-01T00:00. *)
Definition ns_per_day : Z := 86400000000000%Z.

(** The proleptic Gregorian calendar date of a day number (days since
    1970-01-01), as (year, month, day). *)
Definition civil_from_days (z : Z) : Z * Z * Z :=
  let z := (z + 719468)%Z in
  let era := (z / 146097)%Z in
  let doe := (z - era * 146097)%Z in
  let yoe := ((doe - doe / 1460 + doe / 36524 - doe / 146096) / 365)%Z in
  let doy := (doe - (365 * yoe + yoe / 4 - yoe / 100))%Z in
  let mp := ((5 * doy + 2) / 153)%Z in
  let d := (doy - (153 * mp + 2) / 5 + 1)%Z in
  let m := (if (mp <? 10)%Z then mp + 3 else mp - 9)%Z in
  let y := (yoe + era * 400 + (if (m <=? 2)%Z then 1 else 0))%Z in
  (y, m, d).

Definition digit (z : Z) : ascii :=
  ascii_of_nat (48 + Z.to_nat (z mod 10)%Z).

Definition is_digit (c : ascii) : bool :=
  (48 <=? nat_of_ascii c)%nat && (nat_of_ascii c <=? 57)%nat.

(** [%Y-%m-%d] of a calendar date whose year has four digits (every pandas
    timestamp has one: they range over the years 1677 to 2262). *)
Definition format_ymd (ymd : Z * Z * Z) : string :=
  let '(y, m, d) := ymd in
  String (digit (y / 1000)%Z) (String (digit (y / 100)%Z) (String (digit (y / 10)%Z)
  (String (digit y) (String "-"%char (String (digit (m / 10)%Z) (String (digit m)
  (String "-"%char (String (digit (d / 10)%Z) (String (digit d) EmptyString))))))))).

(** [Timestamp.strftime("%Y-%m-%d")] and [str(Timestamp.date())]. *)
Definition strftime_ymd (t : Z) : string :=
  format_ymd (civil_from_days (t / ns_per_day)%Z).

(** ** The table cells and the library operations taken as given *)

(** A non-missing cell of a table column; a missing cell is [None]. *)
Inductive cell : Type :=
| CNum (q : Q)
| CStr (s : string).

Definition column : Type := list (option cell).

(** What the code uses of pandas, numpy and the interpreter without their
    behaviour being fixed by this repository. *)
Record Pandas : Type := mkPandas {
  (** [pd.to_datetime(x)] on a scalar: raises, or returns an instant (a
      timestamp without a time zone), or nothing ([None] for [None],
      [NaT]). *)
  to_datetime : json -> exc (option Z);
  (** [pd.to_datetime(series, errors="coerce")]: [None] is [NaT]. *)
  to_datetime_coerce : column -> list (option Z);
  (** How [pd.to_numeric] reads a string: [None] when it cannot, [Some None]
      when it reads [nan]. *)
  str_to_numeric : string -> option pyfloat;
  (** [series.sample(n, random_state=42)] *)
  sample42 : nat -> list cell -> list cell;
  (** The square root that [std] takes. *)
  np_sqrt : Q -> Q;
  (** [str(x)] of a number, a list or a dict. *)
  py_repr : json -> string;
  (** How numpy converts a value that is not a number to a double. *)
  np_double_other : json -> exc pyfloat;
  (** What [np.linspace(0, delta, n, dtype="int64")] holds at a position
      [i] after the first, for a span of [delta] nanoseconds counted in the
      resolution of the two timestamps: before the last position a product
      and a quotient of doubles, rounded down; at the last position the
      span as a double. *)
  linspace64 : Z -> nat -> nat -> Z;
  (** [pd.date_range(pd.to_datetime(a), pd.to_datetime(b), periods=n)] when
      [a] or [b] gives no timestamp ([None] or [NaT], which pandas tells
      apart): it raises, or it gives an instant at each of the [n]
      positions. *)
  date_range_open : json -> json -> nat -> exc (nat -> Z)
}.

(** ** Ranges of dates *)

(** What [np.linspace(0, delta, n, dtype="int64")] holds at position [i]:
    zero at the first position, whatever the step. *)
Definition linspace (pd : Pandas) (delta : Z) (n i : nat) : Z :=
  if (i =? 0)%nat then 0%Z else linspace64 pd delta n i.

(** [pd.date_range(start, end, periods=n)] without a frequency, where
    [start] and [end] are [pd.to_datetime] of [a] and of [b].  Between two
    instants pandas adds [np.linspace(0, end - start, n, dtype="int64")] to
    [start]. *)
Definition date_range (pd : Pandas) (a b : json) (start stop : option Z)
  (n : nat) : exc (list Z) :=
  match start, stop with
  | Some t, Some u =>
      Ok (map (fun i => (t + linspace pd (u - t) n i)%Z) (seq 0 n))
  | _, _ =>
      f <- date_range_open pd a b n ;;
      Ok (map f (seq 0 n))
  end.

(** ** synthesizer.py *)

Module Synthesizer.

(** [c.get(k, default)] *)
Definition get (c : json) (k : string) (default : json) : exc json :=
  match c with
  | JObj kv =>
      Ok (match Dict.get k kv with
          | Some v => v
          | None => default
          end)
  | _ => Raise AttributeError
  end.

(** The truth value of [v]. *)
Definition truthy (v : json) : bool :=
  match v with
  | JNull => false
  | JBool b => b
  | JNum q => negb (Qeq_bool q 0)
  | JNaN => true
  | JStr s => negb (String.eqb s "")
  | JArr l => match l with [] => false | _ => true end
  | JObj kv => match kv with [] => false | _ => true end
  end.

(** [x[0]] *)
Definition index0 (x : json) : exc json :=
  match x with
  | JArr (y :: _) => Ok y
  | JArr [] => Raise IndexError
  | JStr (String c _) => Ok (JStr (String c EmptyString))
  | JStr EmptyString => Raise IndexError
  | JObj _ => Raise KeyError
  | _ => Raise TypeError
  end.

Definition is_list (v : json) : bool :=
  match v with
  | JArr _ => true
  | _ => false
  end.

(** [str(x)] *)
Definition py_str (pd : Pandas) (x : json) : string :=
  match x with
  | JStr s => s
  | JNull => "None"
  | JBool true => "True"
  | JBool false => "False"
  | _ => py_repr pd x
  end.

Definition _as_list (pd : Pandas) (v : json) : exc (list string) :=
  if negb (truthy v) then Ok []
  else
    xs <- iterate v ;;
    map_exc (fun x =>
               v0 <- index0 v ;;
               if is_list v0
               then (x0 <- index0 x ;; Ok (py_str pd x0))
               else Ok (py_str pd x)) xs.

(** Conversion of a value to a double by numpy. *)
Definition np_double (pd : Pandas) (v : json) : exc pyfloat :=
  match v with
  | JNum _ | JBool _ | JNaN => as_float v
  | _ => np_double_other pd v
  end.

Definition _sample_numeric (pd : Pandas) (c : json) (n : nat)
  : rand (list pyfloat) :=
  low <~ lift (subscript c "min") ;;
  high <~ lift (subscript c "max") ;;
  mu <~ lift (subscript c "mean") ;;
  hi <~ lift (as_float high) ;;
  lo <~ lift (as_float low) ;;
  let sigma := py_max (fdiv (fsub hi lo) (Some 6%Q)) (Some eps) in
  m <~ lift (np_double pd mu) ;;
  xs <~ np_random_normal m sigma n ;;
  ret (map (np_clip lo hi) xs).

(** [range(v)]: a number of integral value stands for an int. *)
Definition py_range (v : json) : exc (list nat) :=
  match v with
  | JNum q =>
      if Qeq_bool q (inject_Z (Qfloor q))
      then Ok (seq 0 (Z.to_nat (Qfloor q)))
      else Raise TypeError
  | JBool b => Ok (seq 0 (if b then 1 else 0))
  | _ => Raise TypeError
  end.

(** [f"cat{i}"] *)
Definition cat_label (i : nat) : string :=
  "cat" ++ NilEmpty.string_of_uint (Nat.to_uint i).

Definition _sample_categorical (pd : Pandas) (c : json) (n : nat)
  : rand (list string) :=
  sv <~ lift (get c "sample_values" JNull) ;;
  l <~ lift (_as_list pd sv) ;;
  cats <~ match l with
          | [] =>
              u <~ lift (get c "unique" (JNum 5)) ;;
              r <~ lift (py_range u) ;;
              ret (map cat_label r)
          | _ => ret l
          end ;;
  random_choices cats n.

(** The body of the [try] block of [_sample_datetime]. *)
Definition spread_dates (pd : Pandas) (c : json) (n : nat) : exc (list string) :=
  a <- subscript c "min" ;;
  start <- to_datetime pd a ;;
  b <- subscript c "max" ;;
  stop <- to_datetime pd b ;;
  l <- date_range pd a b start stop n ;;
  Ok (map strftime_ymd l).

Definition _sample_datetime (pd : Pandas) (c : json) (n : nat) : list string :=
  match spread_dates pd c n with
  | Ok l => l
  | Raise _ => repeat "2000-01-01" n
  end.

Definition _sample_text (pd : Pandas) (c : json) (n : nat) : rand (list string) :=
  sv <~ lift (get c "sample_values" JNull) ;;
  l <~ lift (_as_list pd sv) ;;
  random_choices (match l with [] => ["lorem ipsum"] | _ => l end) n.

(** One column of the synthetic table. *)
Inductive values : Type :=
| Floats (l : list pyfloat)
| Strings (l : list string).

(** A list or a dict cannot be a dict key. *)
Definition hashable (k : json) : bool :=
  match k with
  | JArr _ | JObj _ => false
  | _ => true
  end.

Definition key_num (k : json) : option Q :=
  match k with
  | JNum q => Some q
  | JBool b => Some (bool_Q b)
  | _ => None
  end.

(** Equality of dict keys: strings by content, numbers and bools by value;
    a [nan] read from a document equals no other key. *)
Definition key_eqb (a b : json) : bool :=
  match a, b with
  | JStr x, JStr y => String.eqb x y
  | JNull, JNull => true
  | _, _ =>
      match key_num a, key_num b with
      | Some x, Some y => Qeq_bool x y
      | _, _ => false
      end
  end.

(** [cols[k] = v]: an existing key keeps its place and takes the new
    value, a new key goes last. *)
Fixpoint setitem (k : json) (v : values) (cols : list (json * values))
  : list (json * values) :=
  match cols with
  | [] => [(k, v)]
  | (k', v') :: rest =>
      if key_eqb k' k then (k', v) :: rest
      else (k', v') :: setitem k v rest
  end.

Definition type_is (kind : json) (name : string) : bool :=
  match kind with
  | JStr s => String.eqb s name
  | _ => false
  end.

(** The branch of [generate_rows] that [kind] selects. *)
Definition sample_column (pd : Pandas) (kind col : json) (rows : nat)
  : rand values :=
  if type_is kind "numeric" then
    l <~ _sample_numeric pd col rows ;; ret (Floats l)
  else if type_is kind "datetime" then
    ret (Strings (_sample_datetime pd col rows))
  else if type_is kind "text" then
    l <~ _sample_text pd col rows ;; ret (Strings l)
  else
    l <~ _sample_categorical pd col rows ;; ret (Strings l).

(** One turn of the loop of [generate_rows]. *)
Definition add_column (pd : Pandas) (rows : nat) (col : json)
  (cols : list (json * values)) : rand (list (json * values)) :=
  kind <~ lift (subscript col "type") ;;
  v <~ sample_column pd kind col rows ;;
  name <~ lift (subscript col "name") ;;
  if hashable name then ret (setitem name v cols) else throw TypeError.

Fixpoint add_columns (pd : Pandas) (rows : nat) (l : list json)
  (cols : list (json * values)) : rand (list (json * values)) :=
  match l with
  | [] => ret cols
  | col :: rest =>
      cols' <~ add_column pd rows col cols ;;
      add_columns pd rows rest cols'
  end.

(** The result is the data frame built from the dict [cols]: its columns
    in insertion order. *)
Definition generate_rows (pd : Pandas) (schema : list (string * json))
  (rows : nat) : rand (list (json * values)) :=
  columns <~ lift (Dict.item "columns" schema) ;;
  l <~ lift (iterate columns) ;;
  add_columns pd rows l [].

End Synthesizer.

(** ** generator.py *)

Module Generator.

Definition _sample_numeric (pd : Pandas) (col_schema : json) (n : nat)
  : rand (list pyfloat) :=
  low <~ lift (subscript col_schema "min") ;;
  high <~ lift (subscript col_schema "max") ;;
  mean <~ lift (subscript col_schema "mean") ;;
  hi <~ lift (as_float high) ;;
  lo <~ lift (as_float low) ;;
  let sigma := py_max (fdiv (fsub hi lo) (Some 6%Q)) (Some eps) in
  m <~ lift (Synthesizer.np_double pd mean) ;;
  values <~ np_random_normal m sigma n ;;
  ret (map (np_clip lo hi) values).

Definition _sample_datetime (pd : Pandas) (col_schema : json) (n : nat)
  : exc (list string) :=
  a <- subscript col_schema "min" ;;
  start <- to_datetime pd a ;;
  b <- subscript col_schema "max" ;;
  stop <- to_datetime pd b ;;
  dates <- date_range pd a b start stop n ;;
  Ok (map strftime_ymd dates).

End Generator.

(** ** profiler.py *)

Module Profiler.

(** The cleaned table [self.df]: the length of its index and its labelled
    columns, each as long as the index. *)
Record frame : Type := mkFrame {
  index_len : nat;
  data : list (string * column)
}.

Definition labels (df : frame) : list string := map fst (data df).

(** [df[col]].  A label carried by one column selects that column.  A
    label carried by several selects a sub-table, on which
    [_profile_column] raises [ValueError] (from [pd.to_datetime], or from
    the truth value of [s.isnull().any()]); the selection raises it here. *)
Definition getitem (df : frame) (col : string) : exc column :=
  match filter (fun p => String.eqb (fst p) col) (data df) with
  | [(_, s)] => Ok s
  | [] => Raise KeyError
  | _ => Raise ValueError
  end.

(** [s.dropna()] *)
Fixpoint dropna (s : column) : list cell :=
  match s with
  | [] => []
  | Some c :: rest => c :: dropna rest
  | None :: rest => dropna rest
  end.

Definition cell_eqb (a b : cell) : bool :=
  match a, b with
  | CNum x, CNum y => Qeq_bool x y
  | CStr x, CStr y => String.eqb x y
  | _, _ => false
  end.

(** [pd.to_numeric] on one cell. *)
Definition to_numeric (pd : Pandas) (c : cell) : option pyfloat :=
  match c with
  | CNum q => Some (Some q)
  | CStr s => str_to_numeric pd s
  end.

Definition parses (pd : Pandas) (c : cell) : bool :=
  match to_numeric pd c with
  | Some _ => true
  | None => false
  end.

Definition notna {A : Type} (x : option A) : bool :=
  match x with
  | Some _ => true
  | None => false
  end.

Definition count_true (l : list bool) : nat :=
  List.length (filter (fun b => b) l).

(** The mean of a boolean series; [nan] when it is empty. *)
Definition bool_mean (l : list bool) : pyfloat :=
  match l with
  | [] => None
  | _ => Some (inject_Z (Z.of_nat (count_true l))
               / inject_Z (Z.of_nat (List.length l)))%Q
  end.

(** [x > y] and [x < y] on floats: false when [x] is [nan]. *)
Definition fgt (x : pyfloat) (y : Q) : bool :=
  match x with
  | Some q => Qltb y q
  | None => false
  end.

(** The distinct values of [l], in order of first appearance. *)
Fixpoint distinct (l : list cell) : list cell :=
  match l with
  | [] => []
  | c :: rest => c :: filter (fun d => negb (cell_eqb c d)) (distinct rest)
  end.

Definition nunique (l : list cell) : nat := List.length (distinct l).

Definition sample_size (l : list cell) : nat := Nat.min 20 (List.length l).

Definition _infer_col_type (pd : Pandas) (s : column) : string :=
  let s_nonan := dropna s in
  match s_nonan with
  | [] => "text"
  | _ =>
      if forallb (parses pd) (sample42 pd (sample_size s_nonan) s_nonan)
      then "numeric"
      else
        let dt := to_datetime_coerce pd
                    (map Some (sample42 pd (sample_size s_nonan) s_nonan)) in
        if fgt (bool_mean (map notna dt)) (8 # 10)
        then "datetime"
        else
          let unique_ratio :=
            (inject_Z (Z.of_nat (nunique s_nonan))
             / inject_Z (Z.of_nat (List.length s_nonan)))%Q in
          if Qltb unique_ratio (4 # 10) then "categorical" else "text"
  end.

(** [pd.to_numeric(s, errors="coerce")], then the values that are not
    missing. *)
Fixpoint numbers (pd : Pandas) (s : column) : list Q :=
  match s with
  | [] => []
  | Some c :: rest =>
      match to_numeric pd c with
      | Some (Some q) => q :: numbers pd rest
      | _ => numbers pd rest
      end
  | None :: rest => numbers pd rest
  end.

Definition Qsum (l : list Q) : Q := fold_right Qplus 0%Q l.

Definition len_Q {A : Type} (l : list A) : Q := inject_Z (Z.of_nat (List.length l)).

(** [series.mean()], missing values skipped; [nan] when none is left. *)
Definition mean (l : list Q) : pyfloat :=
  match l with
  | [] => None
  | _ => Some (Qsum l / len_Q l)%Q
  end.

(** [series.std(ddof=0)] *)
Definition std0 (pd : Pandas) (l : list Q) : pyfloat :=
  match l with
  | [] => None
  | _ =>
      let m := (Qsum l / len_Q l)%Q in
      Some (np_sqrt pd (Qsum (map (fun x => (x - m) * (x - m)) l) / len_Q l))%Q
  end.

Definition series_min (l : list Q) : pyfloat :=
  match l with
  | [] => None
  | x :: rest => Some (fold_left (fun a b => if Qltb b a then b else a) rest x)
  end.

Definition series_max (l : list Q) : pyfloat :=
  match l with
  | [] => None
  | x :: rest => Some (fold_left (fun a b => if Qltb a b then b else a) rest x)
  end.

(** [float(x)] as a document value. *)
Definition float_json (x : pyfloat) : json :=
  match x with
  | Some q => JNum q
  | None => JNaN
  end.

Definition cell_json (c : cell) : json :=
  match c with
  | CNum q => JNum q
  | CStr s => JStr s
  end.

Definition count (k : cell) (l : list cell) : nat :=
  List.length (filter (cell_eqb k) l).

(** Insertion of a counted value above the entries that count no more. *)
Fixpoint insert_desc (e : cell * nat) (l : list (cell * nat)) : list (cell * nat) :=
  match l with
  | [] => [e]
  | e' :: rest =>
      if (snd e' <=? snd e)%nat then e :: l else e' :: insert_desc e rest
  end.

(** [s.value_counts(dropna=True)]: every distinct value with its number of
    occurrences, the most frequent first; values that occur equally often
    are kept here in order of first appearance. *)
Definition value_counts (s : column) : list (cell * nat) :=
  fold_right insert_desc []
    (map (fun k => (k, count k (dropna s))) (distinct (dropna s))).

(** [vc[k]] *)
Fixpoint vc_item (k : cell) (vc : list (cell * nat)) : exc nat :=
  match vc with
  | [] => Raise KeyError
  | (k', n) :: rest => if cell_eqb k' k then Ok n else vc_item k rest
  end.

Definition series_min_Z (l : list Z) : option Z :=
  match l with
  | [] => None
  | x :: rest => Some (fold_left Z.min rest x)
  end.

Definition series_max_Z (l : list Z) : option Z :=
  match l with
  | [] => None
  | x :: rest => Some (fold_left Z.max rest x)
  end.

Fixpoint somes {A : Type} (l : list (option A)) : list A :=
  match l with
  | [] => []
  | Some x :: rest => x :: somes rest
  | None :: rest => somes rest
  end.

(** [str(t.date())] *)
Definition date_str (t : option Z) : string :=
  match t with
  | Some z => strftime_ymd z
  | None => "NaT"
  end.

(** [out.update(...)]: the keys added here are new to [out]. *)
Definition update (out extra : list (string * json)) : list (string * json) :=
  out ++ extra.

Definition _profile_column (pd : Pandas) (df : frame) (col : string)
  : exc (list (string * json)) :=
  s <- getitem df col ;;
  let col_type := _infer_col_type pd s in
  let out := [("name", JStr col);
              ("type", JStr col_type);
              ("nullable", JBool (existsb (fun x => negb (notna x)) s))] in
  if String.eqb col_type "numeric" then
    let s_num := numbers pd s in
    Ok (update out [("mean", float_json (mean s_num));
                    ("std", float_json (std0 pd s_num));
                    ("min", float_json (series_min s_num));
                    ("max", float_json (series_max s_num))])
  else if String.eqb col_type "categorical" then
    let vc := value_counts s in
    sample_values <-
      map_exc (fun k =>
                 n <- vc_item k vc ;;
                 Ok (JArr [cell_json k;
                           JNum (inject_Z (Z.of_nat n) / len_Q s)%Q]))
              (map fst (firstn 20 vc)) ;;
    Ok (update out [("unique", JNum (len_Q vc));
                    ("sample_values", JArr sample_values)])
  else if String.eqb col_type "datetime" then
    let s_dt := somes (to_datetime_coerce pd s) in
    Ok (update out [("min", JStr (date_str (series_min_Z s_dt)));
                    ("max", JStr (date_str (series_max_Z s_dt)))])
  else Ok out.

Definition profile (pd : Pandas) (df : frame) : exc (list (string * json)) :=
  columns <- map_exc (_profile_column pd df) (labels df) ;;
  Ok [("columns", JArr (map JObj columns));
      ("num_rows", JNum (inject_Z (Z.of_nat (index_len df))))].

End Profiler.

(** ** A small instance of the library operations

    It reads dates written [YYYY-MM-DD] and numbers written as decimal
    integers, samples a series by keeping its first rows, and takes square
    roots to nine decimals.  The statements below hold for every instance;
    this one serves to evaluate the functions on concrete inputs. *)

Module Iso.

Fixpoint digits_value (acc : Z) (s : string) : option Z :=
  match s with
  | EmptyString => Some acc
  | String c rest =>
      if is_digit c
      then digits_value (10 * acc + Z.of_nat (nat_of_ascii c - 48))%Z rest
      else None
  end.

Definition parse_nat (s : string) : option Z :=
  match s with
  | EmptyString => None
  | _ => digits_value 0%Z s
  end.

Definition parse_int (s : string) : option Z :=
  match s with
  | String "-"%char rest => option_map Z.opp (parse_nat rest)
  | _ => parse_nat s
  end.

(** The day number of a calendar date. *)
Definition days_from_civil (y m d : Z) : Z :=
  let y := (if (m <=? 2)%Z then y - 1 else y)%Z in
  let era := (y / 400)%Z in
  let yoe := (y - era * 400)%Z in
  let mp := (if (m <=? 2)%Z then m + 9 else m - 3)%Z in
  let doy := ((153 * mp + 2) / 5 + d - 1)%Z in
  let doe := (yoe * 365 + yoe / 4 - yoe / 100 + doy)%Z in
  (era * 146097 + doe - 719468)%Z.

Definition parse_date (s : string) : option Z :=
  match parse_nat (substring 0 4 s), parse_nat (substring 5 2 s),
        parse_nat (substring 8 2 s) with
  | Some y, Some m, Some d =>
      if (String.length s =? 10)%nat
         && String.eqb (substring 4 1 s) "-"
         && String.eqb (substring 7 1 s) "-"
         && (1 <=? m)%Z && (m <=? 12)%Z && (1 <=? d)%Z && (d <=? 31)%Z
      then Some (days_from_civil y m d * ns_per_day)%Z
      else None
  | _, _, _ => None
  end.

Definition scalar_date (v : json) : exc (option Z) :=
  match v with
  | JNull => Ok None
  | JStr s =>
      match parse_date s with
      | Some t => Ok (Some t)
      | None => Raise ValueError
      end
  | _ => Raise TypeError
  end.

Definition series_dates (s : column) : list (option Z) :=
  map (fun x => match x with
                | Some (CStr t) => parse_date t
                | _ => None
                end) s.

Definition read_number (s : string) : option pyfloat :=
  option_map (fun z => Some (inject_Z z)) (parse_int s).

Definition sqrt9 (q : Q) : Q :=
  (Z.sqrt (Qnum q * 1000000000000000000 / Z.pos (Qden q)) # 1000000000)%Q.

Definition repr (v : json) : string :=
  match v with
  | JNum q => NilEmpty.string_of_int (Z.to_int (Qfloor q))
  | JNaN => "nan"
  | _ => "[]"
  end.

(** Rounding to the nearest double, ties to the even mantissa (normal
    range). *)
Definition pow2 (e : Z) : Q :=
  if (0 <=? e)%Z then inject_Z (2 ^ e) else (/ inject_Z (2 ^ (- e)))%Q.

Definition half_even (x : Q) : Z :=
  let f := Qfloor x in
  match (x - inject_Z f ?= 1 # 2)%Q with
  | Lt => f
  | Gt => (f + 1)%Z
  | Eq => if Z.even f then f else (f + 1)%Z
  end.

Definition binary64 (q : Q) : Q :=
  if Qeq_bool q 0 then 0%Q
  else
    let a := Qabs q in
    let e0 := (Z.log2 (Qnum a) - Z.log2 (Z.pos (Qden a)) - 52)%Z in
    let e := if Qltb (a / pow2 e0) (pow2 52) then (e0 - 1)%Z
             else if Qltb (a / pow2 e0) (pow2 53) then e0
             else (e0 + 1)%Z in
    ((if Qltb q 0 then - (1) else 1) * inject_Z (half_even (a / pow2 e)) * pow2 e)%Q.

(** The integer that a 64-bit integer becomes when numpy stores it in a
    double and reads it back: [z] rounded to 53 significant bits, ties to
    the even mantissa. *)
Definition round53 (z : Z) : Z :=
  let a := Z.abs z in
  if (a <? 2 ^ 53)%Z then z
  else
    let e := (Z.log2 a - 52)%Z in
    let q := (a / 2 ^ e)%Z in
    let r := (a mod 2 ^ e)%Z in
    let q' := (if (2 * r <? 2 ^ e)%Z then q
               else if (2 ^ e <? 2 * r)%Z then q + 1
               else if Z.even q then q else q + 1)%Z in
    (Z.sgn z * (q' * 2 ^ e))%Z.

(** [np.linspace] as numpy computes it on a count of nanoseconds: the step
    is the quotient of two doubles, each position a product of doubles,
    rounded down; the last position is assigned the span as a double. *)
Definition spread64 (delta : Z) (n i : nat) : Z :=
  if (S i =? n)%nat then round53 delta
  else
    let d := inject_Z (round53 delta) in
    let step := binary64 (d / inject_Z (Z.of_nat n - 1)) in
    Qfloor (binary64 (inject_Z (Z.of_nat i) * step)).

Definition pandas : Pandas :=
  mkPandas scalar_date series_dates read_number (@firstn cell) sqrt9 repr
           (fun _ => Raise TypeError) spread64
           (fun _ _ _ => Raise ValueError).

(** Generators whose draws count up. *)
Definition ramp : Rng :=
  mkRng (fun i => (inject_Z (Z.of_nat i) - 2)%Q)
        (fun i => (N.of_nat i * 3000000000000000)%N).

End Iso.

(** ** Notions used to state the properties *)

(** The shape the data model gives a document: [columns], when present, is a
    list of dicts. *)
Definition is_dict (v : json) : bool :=
  match v with
  | JObj _ => true
  | _ => false
  end.

Definition shaped (s : list (string * json)) : bool :=
  match Dict.get "columns" s with
  | Some (JArr l) => forallb is_dict l
  | Some _ => false
  | None => true
  end.

(** The column descriptors of a document. *)
Definition descriptors (s : list (string * json)) : list json :=
  match Dict.get "columns" s with
  | Some (JArr l) => l
  | _ => []
  end.

Definition lacks_name_or_type (col : json) : Prop :=
  match col with
  | JObj kv => Dict.get "name" kv = None \/ Dict.get "type" kv = None
  | _ => False
  end.

(** The standard deviation [_sample_numeric] draws with, and the clipping of
    one draw, on numbers. *)
Definition sigma_of (lo hi : Q) : Q :=
  if Qltb ((hi - lo) / 6) eps then eps else ((hi - lo) / 6)%Q.



(** The decision order of the column type inference, as the specification
    words it.  Percentages are compared on whole numbers: [parsed] out of
    [total] is more than 80% when [8 * total < 10 * parsed], and [distinct]
    out of [total] is below 0.4 when [10 * distinct < 4 * total]. *)
Definition more_than_80_percent (parsed total : nat) : bool :=
  (8 * total <? 10 * parsed)%nat.

Definition ratio_below_0_4 (distinct total : nat) : bool :=
  (10 * distinct <? 4 * total)%nat.

Definition decision_chain (pd : Pandas) (s : column) : string :=
  let present := Profiler.dropna s in
  let sampled := sample42 pd (Nat.min 20 (List.length present)) present in
  let dates := to_datetime_coerce pd (map Some sampled) in
  match present with
  | [] => "text"
  | _ =>
      if forallb (Profiler.parses pd) sampled then "numeric"
      else if more_than_80_percent
                (Profiler.count_true (map Profiler.notna dates))
                (List.length dates)
      then "datetime"
      else if ratio_below_0_4 (Profiler.nunique present) (List.length present)
      then "categorical"
      else "text"
  end.

(** The shape [YYYY-MM-DD]. *)
Definition is_ymd (s : string) : bool :=
  match s with
  | String y1 (String y2 (String y3 (String y4 (String h1 (String m1
      (String m2 (String h2 (String d1 (String d2 EmptyString))))))))) =>
      is_digit y1 && is_digit y2 && is_digit y3 && is_digit y4
      && Ascii.eqb h1 "-" && is_digit m1 && is_digit m2
      && Ascii.eqb h2 "-" && is_digit d1 && is_digit d2
  | _ => false
  end.




(** A [sample_values] entry as the profiler writes it: a value and its
    frequency. *)
Definition pair_json (p : json * json) : json := JArr [fst p; snd p].

(** The window of [[0, 1)] whose draws select index [j] among [k]. *)
Definition in_window (k j : nat) (u : Q) : Prop :=
  (inject_Z (Z.of_nat j) / inject_Z (Z.of_nat k) <= u)%Q
  /\ (u < (inject_Z (Z.of_nat j) + 1) / inject_Z (Z.of_nat k))%Q.

(** The name and the type of a column descriptor. *)
Definition col_name (col : json) : json :=
  match subscript col "name" with
  | Ok v => v
  | Raise _ => JNull
  end.

Definition col_type (col : json) : json :=
  match subscript col "type" with
  | Ok v => v
  | Raise _ => JNull
  end.

(** No key of [l] equals, as a dict key, a key of [seen] or an earlier key
    of [l]. *)
Fixpoint distinct_from (seen l : list json) : bool :=
  match l with
  | [] => true
  | k :: rest =>
      forallb (fun k' => negb (Synthesizer.key_eqb k' k)) seen
      && distinct_from (seen ++ [k]) rest
  end.

Definition distinct_keys (l : list json) : bool := distinct_from [] l.

(** The sampler that the type of [col] selects returns, whatever the state
    of the generators. *)
Definition samples (pd : Pandas) (rows : nat) (col : json) : Prop :=
  forall g, exists v g',
    Synthesizer.sample_column pd (col_type col) col rows g = (Ok v, g').


(** A dict with a [name] and a [type]. *)
Definition named_and_typed (col : json) : Prop :=
  exists kv nm ty,
    col = JObj kv /\ Dict.get "name" kv = Some nm /\ Dict.get "type" kv = Some ty.

(** The occurrences of [k] among the non-missing values of [s], over
    [total]. *)
Definition frequency (k : cell) (s : column) (total : nat) : Q :=
  (inject_Z (Z.of_nat (Profiler.count k (Profiler.dropna s)))
   / inject_Z (Z.of_nat total))%Q.

(** The [sample_values] that [_profile_column] stores for [s]. *)
Definition stored_sample_values (s : column) : list json :=
  map (fun k => JArr [Profiler.cell_json k;
                      JNum (frequency k s (List.length s))])
      (map fst (firstn 20 (Profiler.value_counts s))).

(** Every frequency stored for the column [col] is the value's number of
    occurrences over [total s], where [s] is the column. *)
Definition frequencies_over (total : column -> nat) (pd : Pandas)
  (df : Profiler.frame) (col : string) : Prop :=
  forall s d sv k f,
    Profiler.getitem df col = Ok s ->
    Profiler._profile_column pd df col = Ok d ->
    Dict.get "type" d = Some (JStr "categorical") ->
    Dict.get "sample_values" d = Some (JArr sv) ->
    In (JArr [Profiler.cell_json k; JNum f]) sv ->
    (f == frequency k s (total s))%Q.

Definition no_missing (s : column) : bool :=
  forallb (fun x => Profiler.notna x) s.

(** An entry of [value_counts] that carries the count of its value. *)
Definition counted (l : list cell) (e : cell * nat) : Prop :=
  snd e = Profiler.count (fst e) l.

(** The sampler returns values of the series it samples. *)
Definition samples_within (pd : Pandas) : Prop :=
  forall (n : nat) (l : list cell), incl (sample42 pd n l) l.

(** The population variance of [l]: the mean of the squared deviations from
    the mean, over the number of values. *)
Definition population_variance (l : list Q) : Q :=
  let m := (Profiler.Qsum l / Profiler.len_Q l)%Q in
  (Profiler.Qsum (map (fun x => (x - m) * (x - m)) l) / Profiler.len_Q l)%Q.

(** ** Further notions: the synthesizer *)

(** The number of rows of a synthesized column. *)
Definition column_length (v : Synthesizer.values) : nat :=
  match v with
  | Synthesizer.Floats l => List.length l
  | Synthesizer.Strings l => List.length l
  end.

(** A descriptor of type "datetime" with a hashable name. *)
Definition datetime_column (col : json) : Prop :=
  exists kv nm,
    col = JObj kv
    /\ Dict.get "type" kv = Some (JStr "datetime")
    /\ Dict.get "name" kv = Some nm
    /\ Synthesizer.hashable nm = true.

(** What [generate_rows] keeps true of the dict it fills. *)
Definition table_invariant (rows : nat) (t : list (json * Synthesizer.values))
  : Prop :=
  Forall (fun p => column_length (snd p) = rows) t
  /\ distinct_keys (map fst t) = true.

(** ** profiler.py: the table cleaner *)

(** What the cleaner uses of Python's strings without this repository
    fixing it.  A string is the sequence of the bytes of its UTF-8 form. *)
Record Text : Type := mkText {
  (** The text that [astype(str)] gives the number [q] held in the column at
      position [j]. *)
  num_text : nat -> Q -> string;
  (** [s.lower()] for a string that has a character outside ASCII. *)
  lower_other : string -> string;
  (** Whether [astype(str)] writes a missing cell as the text [nan], as
      pandas 2 does; pandas 3 leaves the cell missing. *)
  nan_as_text : bool
}.

Module Cleaner.

(** The raw table: its column names and its rows, each row with one cell per
    column.  A missing cell is the float [nan], as [pd.read_csv] leaves
    it. *)
Record table : Type := mkTable {
  columns : list string;
  rows : list (list (option cell))
}.

Definition _METADATA_TOKENS : list string := ["ticker"; "date"; "nan"; ""].

Definition is_ascii (c : ascii) : bool := (nat_of_ascii c <? 128)%nat.

Definition is_upper (c : ascii) : bool :=
  (65 <=? nat_of_ascii c)%nat && (nat_of_ascii c <=? 90)%nat.

Definition lower_ascii (c : ascii) : ascii :=
  if is_upper c then ascii_of_nat (nat_of_ascii c + 32) else c.

Fixpoint map_string (f : ascii -> ascii) (s : string) : string :=
  match s with
  | EmptyString => EmptyString
  | String c rest => String (f c) (map_string f rest)
  end.

(** [s.lower()]: on an ASCII string the letters A to Z are shifted. *)
Definition lower (tx : Text) (s : string) : string :=
  if forallb is_ascii (list_ascii_of_string s)
  then map_string lower_ascii s
  else lower_other tx s.

(** What [astype(str)] makes of the cell at position [j] of a row: the
    text of the cell, or a cell that is still missing. *)
Definition cell_text (tx : Text) (j : nat) (x : option cell) : option string :=
  match x with
  | None => if nan_as_text tx then Some "nan" else None
  | Some (CStr s) => Some s
  | Some (CNum q) => Some (num_text tx j q)
  end.

Fixpoint texts_from (tx : Text) (j : nat) (row : list (option cell))
  : list (option string) :=
  match row with
  | [] => []
  | x :: rest =>
      option_map (lower tx) (cell_text tx j x) :: texts_from tx (S j) rest
  end.

(** [row.astype(str).str.lower()] *)
Definition row_str (tx : Text) (row : list (option cell))
  : list (option string) :=
  texts_from tx 0 row.

Definition is_word_char (c : ascii) : bool :=
  ((97 <=? nat_of_ascii c)%nat && (nat_of_ascii c <=? 122)%nat)
  || (nat_of_ascii c =? 95)%nat.

(** [re.fullmatch(r"[a-z_]+", s)] *)
Definition fullmatch_word (s : string) : bool :=
  match s with
  | EmptyString => false
  | _ => forallb is_word_char (list_ascii_of_string s)
  end.

(** A test of the [.str] accessor, or [isin], on a cell that may still be
    missing: a missing cell passes none. *)
Definition str_test (p : string -> bool) (t : option string) : bool :=
  match t with
  | Some s => p s
  | None => false
  end.

(** [list(row_str) == names]: a missing cell equals no name. *)
Fixpoint strings_eqb (a : list (option string)) (b : list string) : bool :=
  match a, b with
  | [], [] => true
  | x :: a', y :: b' => str_test (fun s => String.eqb s y) x && strings_eqb a' b'
  | _, _ => false
  end.

Definition _looks_like_header (tx : Text) (row : list (option cell))
  (column_names : list string) : bool :=
  let row_str := row_str tx row in
  if strings_eqb row_str (map (lower tx) column_names) then true
  else if forallb (str_test fullmatch_word) row_str then true
  else false.

(** [s in _METADATA_TOKENS] *)
Definition is_token (s : string) : bool :=
  existsb (String.eqb s) _METADATA_TOKENS.

(** The rows that step 2 of [_clean] drops. *)
Definition is_metadata (tx : Text) (column_names : list string)
  (r : list (option cell)) : bool :=
  _looks_like_header tx r column_names
  || forallb (str_test is_token) (row_str tx r).

(** [df.dropna(how="all")] keeps the rows with a cell that is not missing. *)
Definition has_value (r : list (option cell)) : bool :=
  existsb (fun x => Profiler.notna x) r.

(** Step 1 drops the rows without a value; step 2 selects the rows that
    [df.apply(..., axis=1)] does not mark as metadata.  On a table that step
    1 leaves without rows [df.apply] has no row to mark, and the selection
    comes out without columns. *)
Definition _clean (tx : Text) (df : table) : table :=
  let df1 := mkTable (columns df) (filter has_value (rows df)) in
  match rows df1 with
  | [] => mkTable [] []
  | _ :: _ =>
      mkTable (columns df1)
              (filter (fun r => negb (is_metadata tx (columns df1) r)) (rows df1))
  end.

Fixpoint columns_from (j : nat) (names : list string)
  (rs : list (list (option cell))) : list (string * column) :=
  match names with
  | [] => []
  | c :: rest =>
      (c, map (fun r => nth j r None) rs) :: columns_from (S j) rest rs
  end.

(** The table by columns, as [_profile_column] reads it. *)
Definition frame_of (df : table) : Profiler.frame :=
  Profiler.mkFrame (List.length (rows df))
                   (columns_from 0 (columns df) (rows df)).

(** [Profiler(df).profile()] *)
Definition profile_table (pd : Pandas) (tx : Text) (df : table)
  : exc (list (string * json)) :=
  Profiler.profile pd (frame_of (_clean tx df)).

(** An instance of [Text] that writes a number as the decimal form of its
    integer part and a missing cell as [nan]. *)
Definition plain_text : Text :=
  mkText (fun _ q => NilEmpty.string_of_int (Z.to_int (Qfloor q)))
         (fun s => s) true.

(** The same, leaving a missing cell missing. *)
Definition plain_text_na : Text :=
  mkText (fun _ q => NilEmpty.string_of_int (Z.to_int (Qfloor q)))
         (fun s => s) false.

End Cleaner.

Definition is_letter_or_underscore (c : ascii) : bool :=
  Cleaner.is_upper c || Cleaner.is_word_char c.

(** A cell that reads as a word: a non-empty string of ASCII letters and
    underscores, or a missing cell where [astype(str)] writes it as
    [nan]. *)
Definition wordy_cell (tx : Text) (x : option cell) : bool :=
  match x with
  | None => nan_as_text tx
  | Some (CStr s) =>
      negb (String.eqb s "")
      && forallb is_letter_or_underscore (list_ascii_of_string s)
  | Some (CNum _) => false
  end.

Definition has_digit (s : string) : bool :=
  existsb is_digit (list_ascii_of_string s).

(** The descriptor of an empty text column. *)
Definition empty_text_descriptor (name : string) : json :=
  JObj [("name", JStr name); ("type", JStr "text"); ("nullable", JBool false)].

(** The column names that cleaning keeps: all of them when a row of the
    table has a value, none otherwise. *)
Definition cleaned_columns (df : Cleaner.table) : list string :=
  if existsb Cleaner.has_value (Cleaner.rows df) then Cleaner.columns df
  else [].

(** ** profiler.py: [profile_csv] *)

Module ProfileCsv.

(** [f"col_{i}"] *)
Definition col_label (i : nat) : string :=
  "col_" ++ NilEmpty.string_of_uint (Nat.to_uint i).

(** [df.columns = [f"col_{i}" for i in range(df.shape[1])]] *)
Definition rename_columns (df : Cleaner.table) : Cleaner.table :=
  Cleaner.mkTable (map col_label (seq 0 (List.length (Cleaner.columns df))))
                  (Cleaner.rows df).

(** [df.iloc[0]] *)
Definition iloc0 (df : Cleaner.table) : exc (list (option cell)) :=
  match Cleaner.rows df with
  | r :: _ => Ok r
  | [] => Raise IndexError
  end.

(** [pd.to_numeric(row, errors="coerce").notna()] on one cell. *)
Definition reads_as_number (pd : Pandas) (x : option cell) : bool :=
  match x with
  | Some c =>
      match Profiler.to_numeric pd c with
      | Some (Some _) => true
      | _ => false
      end
  | None => false
  end.

(** The file at [path] is given by what [pd.read_csv] makes of it:
    [read_csv true] with [header=0], [read_csv false] with [header=None]. *)
Definition profile_csv (pd : Pandas) (tx : Text)
  (read_csv : bool -> exc Cleaner.table) (force_no_header : bool)
  : exc (list (string * json)) :=
  df <- (if force_no_header then
           df <- read_csv false ;;
           Ok (rename_columns df)
         else
           df <- read_csv true ;;
           first_row <- iloc0 df ;;
           let looks_numeric := forallb (reads_as_number pd) first_row in
           let looks_date :=
             forallb (fun t => Profiler.notna t) (to_datetime_coerce pd first_row) in
           if looks_numeric || looks_date then
             df <- read_csv false ;;
             Ok (rename_columns df)
           else Ok df) ;;
  Cleaner.profile_table pd tx df.

End ProfileCsv.

(** * Properties *)

Local Open Scope list_scope.

(** ** Shared facts *)

Lemma Qltb_true (x y : Q) : Qltb x y = true <-> (x < y)%Q.
Proof.
  unfold Qltb. rewrite Qlt_alt.
  destruct (x ?= y)%Q; split; intro H; congruence.
Qed.

Lemma Qltb_false (x y : Q) : Qltb x y = false <-> (y <= x)%Q.
Proof.
  split; intro H.
  - apply Qnot_lt_le. intro L. apply Qltb_true in L. congruence.
  - destruct (Qltb x y) eqn:E; [|reflexivity].
    apply Qltb_true in E. exfalso. apply (Qlt_not_le _ _ E H).
Qed.

Lemma map_exc_length {A B : Type} (f : A -> exc B) (xs : list A) (ys : list B) :
  map_exc f xs = Ok ys -> List.length ys = List.length xs.
Proof.
  revert ys. induction xs as [|x xs IH]; simpl; intros ys H.
  - injection H as <-. reflexivity.
  - destruct (f x) as [y|e]; simpl in H; [|discriminate].
    destruct (map_exc f xs) as [zs|e]; simpl in H; [|discriminate].
    injection H as <-. simpl. f_equal. apply IH. reflexivity.
Qed.

Lemma map_exc_total {A B : Type} (f : A -> exc B) (g : A -> B) (xs : list A) :
  (forall x, In x xs -> f x = Ok (g x)) -> map_exc f xs = Ok (map g xs).
Proof.
  induction xs as [|x xs IH]; simpl; intro H; [reflexivity|].
  rewrite (H x (or_introl eq_refl)). simpl.
  rewrite IH by (intros y Hy; apply H; right; exact Hy). reflexivity.
Qed.

(** ** The validator *)

Lemma check_column_dict (kv : list (string * json)) :
  (Validators.check_column (JObj kv) = Raise ValueError
   /\ lacks_name_or_type (JObj kv))
  \/ (Validators.check_column (JObj kv) = Ok tt
      /\ ~ lacks_name_or_type (JObj kv)).
Proof.
  unfold Validators.check_column, Validators.has_name_and_type, Dict.mem. simpl.
  destruct (Dict.get "name" kv) as [a|], (Dict.get "type" kv) as [b|]; simpl;
    solve [ left; split; [reflexivity | auto]
          | right; split; [reflexivity | intros [H|H]; discriminate] ].
Qed.

Lemma for_each_check_column (l : list json) :
  forallb is_dict l = true ->
  (for_each Validators.check_column l = Raise ValueError
   /\ Exists lacks_name_or_type l)
  \/ (for_each Validators.check_column l = Ok tt
      /\ ~ Exists lacks_name_or_type l).
Proof.
  induction l as [|col l IH]; simpl; intro H.
  - right. split; [reflexivity | intro E; inversion E].
  - apply andb_prop in H. destruct H as [Hc Hl].
    destruct col; try discriminate.
    destruct (check_column_dict kv) as [[R L]|[R L]]; rewrite R; simpl.
    + left. split; [reflexivity | constructor; exact L].
    + destruct (IH Hl) as [[R' L']|[R' L']]; rewrite R'.
      * left. split; [reflexivity | apply Exists_cons_tl; exact L'].
      * right. split; [reflexivity|].
        intro E. inversion E; subst; contradiction.
Qed.

(** C7. On a document of the data model's shape, [validate_schema] raises
    the malformed-schema error ([ValueError]) exactly when the document has
    no [columns] key or one of its column descriptors has no [name] or no
    [type], and returns normally otherwise; it raises on the empty document
    and on the document whose only column has a name and no type; and the
    document after the call is the document before it. *)
Theorem validate_schema_raises_iff (s : list (string * json))
  (Hs : shaped s = true) :
  (snd (Validators.validate_schema s) = Raise ValueError
   <-> Dict.get "columns" s = None \/ Exists lacks_name_or_type (descriptors s))
  /\ (snd (Validators.validate_schema s) = Raise ValueError
      \/ snd (Validators.validate_schema s) = Ok tt)
  /\ snd (Validators.validate_schema []) = Raise ValueError
  /\ snd (Validators.validate_schema
            [("columns", JArr [JObj [("name", JStr "x")]])]) = Raise ValueError
  /\ (forall d, fst (Validators.validate_schema d) = d).
Proof.
  assert (G : (snd (Validators.validate_schema s) = Raise ValueError
               /\ (Dict.get "columns" s = None
                   \/ Exists lacks_name_or_type (descriptors s)))
              \/ (snd (Validators.validate_schema s) = Ok tt
                  /\ ~ (Dict.get "columns" s = None
                        \/ Exists lacks_name_or_type (descriptors s)))).
  { unfold shaped in Hs. unfold Validators.validate_schema, descriptors,
      Dict.mem, Dict.item. simpl.
    destruct (Dict.get "columns" s) as [v|] eqn:E; simpl.
    - destruct v; try discriminate. simpl.
      destruct (for_each_check_column l Hs) as [[R L]|[R L]]; rewrite R.
      + left. split; [reflexivity | right; exact L].
      + right. split; [reflexivity|]. intros [H|H]; [discriminate | contradiction].
    - left. split; [reflexivity | left; reflexivity]. }
  repeat split.
  - intro R. destruct G as [[_ P]|[R' _]]; [exact P | congruence].
  - intro P. destruct G as [[R _]|[_ N]]; [exact R | contradiction].
  - destruct G as [[R _]|[R _]]; [left | right]; exact R.
Qed.

(** A document with two well-formed columns, and one that lacks a type. *)
Lemma validate_schema_raises_iff_witness :
  snd (Validators.validate_schema
         [("columns", JArr [JObj [("name", JStr "age"); ("type", JStr "int")];
                            JObj [("name", JStr "x")]])]) = Raise ValueError.
Proof.
  apply (proj1 (validate_schema_raises_iff
                  [("columns", JArr [JObj [("name", JStr "age"); ("type", JStr "int")];
                                     JObj [("name", JStr "x")]])]
                  eq_refl)).
  right. apply Exists_cons_tl. apply Exists_cons_hd. right. reflexivity.
Defined.

(** ** The numeric sampler *)



Lemma sigma_of_spec (lo hi : Q) :
  (0 < sigma_of lo hi)%Q
  /\ ((hi - lo) / 6 <= sigma_of lo hi)%Q
  /\ (eps <= sigma_of lo hi)%Q
  /\ (sigma_of lo hi = ((hi - lo) / 6)%Q \/ sigma_of lo hi = eps).
Proof.
  assert (P : (0 < eps)%Q) by reflexivity.
  unfold sigma_of. destruct (Qltb ((hi - lo) / 6) eps) eqn:E.
  - apply Qltb_true in E. repeat split; auto; lra.
  - apply Qltb_false in E. repeat split; auto; lra.
Qed.

Lemma py_max_sigma (lo hi : Q) :
  py_max (fdiv (fsub (Some hi) (Some lo)) (Some 6%Q)) (Some eps)
  = Some (sigma_of lo hi).
Proof.
  unfold py_max, fdiv, fsub, sigma_of.
  destruct (Qltb ((hi - lo) / 6) eps); reflexivity.
Qed.




(** ** The two synthesis modules *)

Lemma generator_is_spread_dates (pd : Pandas) (c : json) (n : nat) :
  Generator._sample_datetime pd c n = Synthesizer.spread_dates pd c n.
Proof. reflexivity. Qed.

Lemma spread_dates_parsed (pd : Pandas) (c : json) (n : nat) (a b : json)
  (start stop : Z) :
  subscript c "min" = Ok a -> to_datetime pd a = Ok (Some start) ->
  subscript c "max" = Ok b -> to_datetime pd b = Ok (Some stop) ->
  Synthesizer.spread_dates pd c n
  = Ok (map strftime_ymd
          (map (fun i => (start + linspace pd (stop - start) n i)%Z)
               (seq 0 n))).
Proof.
  intros Ha Hs Hb He. unfold Synthesizer.spread_dates.
  rewrite Ha. simpl. rewrite Hs. simpl. rewrite Hb. simpl. rewrite He.
  reflexivity.
Qed.

(** C10. Given the same column schema, row count and state of the random
    generators, [generator._sample_numeric] and [synthesizer._sample_numeric]
    return the same values (or raise the same error) and leave the generators
    in the same state; when [min] and [max] parse as dates,
    [generator._sample_datetime] returns the list of dates that
    [synthesizer._sample_datetime] returns; and whatever list the generator's
    version returns is the synthesizer's. *)
Theorem generator_agrees_with_synthesizer :
  (forall (pd : Pandas) (c : json) (n : nat) (g : Rng),
      Generator._sample_numeric pd c n g = Synthesizer._sample_numeric pd c n g)
  /\ (forall (pd : Pandas) (c : json) (n : nat) (a b : json) (start stop : Z),
         subscript c "min" = Ok a -> to_datetime pd a = Ok (Some start) ->
         subscript c "max" = Ok b -> to_datetime pd b = Ok (Some stop) ->
         Generator._sample_datetime pd c n
         = Ok (Synthesizer._sample_datetime pd c n))
  /\ (forall (pd : Pandas) (c : json) (n : nat) (l : list string),
         Generator._sample_datetime pd c n = Ok l ->
         Synthesizer._sample_datetime pd c n = l).
Proof.
  split; [|split].
  - intros pd c n g. reflexivity.
  - intros pd c n a b start stop Ha Hs Hb He.
    rewrite generator_is_spread_dates. unfold Synthesizer._sample_datetime.
    rewrite (spread_dates_parsed pd c n a b start stop Ha Hs Hb He).
    reflexivity.
  - intros pd c n l H. rewrite generator_is_spread_dates in H.
    unfold Synthesizer._sample_datetime. rewrite H. reflexivity.
Qed.

(** A week of January 2021 spread over four rows. *)
Lemma generator_agrees_with_synthesizer_witness :
  Generator._sample_datetime Iso.pandas
    (JObj [("min", JStr "2021-01-01"); ("max", JStr "2021-01-07")]) 4
  = Ok (Synthesizer._sample_datetime Iso.pandas
          (JObj [("min", JStr "2021-01-01"); ("max", JStr "2021-01-07")]) 4).
Proof.
  apply (proj1 (proj2 generator_agrees_with_synthesizer) Iso.pandas
           (JObj [("min", JStr "2021-01-01"); ("max", JStr "2021-01-07")]) 4
           (JStr "2021-01-01") (JStr "2021-01-07")
           1609459200000000000%Z 1609977600000000000%Z);
    reflexivity.
Defined.

(** ** Column type inference *)

Lemma Qlt_fraction (a : Z) (b : positive) (c n : nat) :
  (0 < n)%nat ->
  ((a # b) < inject_Z (Z.of_nat c) / inject_Z (Z.of_nat n))%Q
  <-> (a * Z.of_nat n < Z.pos b * Z.of_nat c)%Z.
Proof.
  intro Hn.
  assert (P : (0 < inject_Z (Z.of_nat n))%Q)
    by (unfold Qlt; simpl; lia).
  split; intro H.
  - apply (Qmult_lt_r _ _ _ P) in H.
    unfold Qdiv in H.
    rewrite <- Qmult_assoc, (Qmult_comm (/ _)), Qmult_inv_r, Qmult_1_r in H
      by (intro E; rewrite E in P; discriminate).
    unfold Qlt in H. simpl in H. lia.
  - apply Qlt_shift_div_l; [exact P|].
    unfold Qlt. simpl. lia.
Qed.

Lemma Qgt_fraction (a : Z) (b : positive) (c n : nat) :
  (0 < n)%nat ->
  (inject_Z (Z.of_nat c) / inject_Z (Z.of_nat n) < (a # b))%Q
  <-> (Z.pos b * Z.of_nat c < a * Z.of_nat n)%Z.
Proof.
  intro Hn.
  assert (P : (0 < inject_Z (Z.of_nat n))%Q)
    by (unfold Qlt; simpl; lia).
  split; intro H.
  - apply (Qmult_lt_r _ _ _ P) in H.
    unfold Qdiv in H.
    rewrite <- Qmult_assoc, (Qmult_comm (/ _)), Qmult_inv_r, Qmult_1_r in H
      by (intro E; rewrite E in P; discriminate).
    unfold Qlt in H. simpl in H. lia.
  - apply Qlt_shift_div_r; [exact P|].
    unfold Qlt. simpl. lia.
Qed.

Lemma bool_eq_iff (a b : bool) : (a = true <-> b = true) -> a = b.
Proof. destruct a, b; intros [H1 H2]; auto; symmetry; auto. Qed.

Lemma bool_mean_above (l : list bool) :
  Profiler.fgt (Profiler.bool_mean l) (8 # 10)
  = more_than_80_percent (Profiler.count_true l) (List.length l).
Proof.
  unfold more_than_80_percent. destruct l as [|b l].
  - reflexivity.
  - unfold Profiler.bool_mean, Profiler.fgt.
    apply bool_eq_iff. rewrite Qltb_true, Nat.ltb_lt.
    rewrite Qlt_fraction by (simpl; lia). lia.
Qed.

Lemma unique_ratio_below (d n : nat) :
  (0 < n)%nat ->
  Qltb (inject_Z (Z.of_nat d) / inject_Z (Z.of_nat n)) (4 # 10)
  = ratio_below_0_4 d n.
Proof.
  intro Hn. unfold ratio_below_0_4.
  apply bool_eq_iff. rewrite Qltb_true, Nat.ltb_lt.
  rewrite Qgt_fraction by exact Hn. lia.
Qed.

(** C3. [_infer_col_type] takes the first matching case of: no non-missing
    value, text; every value of the seeded sample of [min(20, count)]
    non-missing values parses as a number, numeric; more than 80% of the
    sampled values parse as dates, datetime; the number of distinct values
    over the number of non-missing values strictly below 0.4, categorical;
    otherwise text. *)
Theorem infer_col_type_decision_chain (pd : Pandas) (s : column) :
  Profiler._infer_col_type pd s = decision_chain pd s.
Proof.
  unfold Profiler._infer_col_type, decision_chain, Profiler.sample_size.
  destruct (Profiler.dropna s) as [|c rest] eqn:E; [reflexivity|].
  destruct (forallb _ _); [reflexivity|].
  rewrite bool_mean_above, length_map.
  destruct (more_than_80_percent _ _); [reflexivity|].
  rewrite unique_ratio_below by (simpl; lia).
  reflexivity.
Qed.

(** ** The datetime sampler *)

Lemma is_digit_digit (z : Z) : is_digit (digit z) = true.
Proof.
  unfold digit.
  assert (H : (Z.to_nat (z mod 10) < 10)%nat).
  { pose proof (Z.mod_pos_bound z 10 eq_refl). lia. }
  destruct (Z.to_nat (z mod 10)) as [|[|[|[|[|[|[|[|[|[|k]]]]]]]]]];
    try reflexivity; lia.
Qed.

Lemma is_ymd_strftime (t : Z) : is_ymd (strftime_ymd t) = true.
Proof.
  unfold strftime_ymd, format_ymd.
  destruct (civil_from_days (t / ns_per_day)) as [[y m] d].
  unfold is_ymd. rewrite !is_digit_digit. reflexivity.
Qed.

Lemma nth_error_map_seq {A : Type} (f : nat -> A) (n i : nat) :
  (i < n)%nat -> nth_error (map f (seq 0 n)) i = Some (f i).
Proof.
  intro H. rewrite nth_error_map, nth_error_seq.
  destruct (Nat.ltb_spec i n); [reflexivity | lia].
Qed.








(** ** The categorical sampler *)

Lemma py_random_unit (g : Rng) (i : nat) :
  (0 <= py_random g i)%Q /\ (py_random g i < 1)%Q.
Proof.
  unfold py_random.
  pose proof (N.mod_upper_bound (word53 g i) two53) as H.
  assert (B : (word53 g i mod two53 < two53)%N) by (apply H; discriminate).
  revert B. generalize (word53 g i mod two53)%N. intros m B.
  unfold two53 in B. unfold Qle, Qlt. cbn [Qnum Qden]. lia.
Qed.

Lemma Qfloor_unique (x : Q) (z : Z) :
  (inject_Z z <= x)%Q -> (x < inject_Z z + 1)%Q -> Qfloor x = z.
Proof.
  intros L U.
  pose proof (Qfloor_le x) as A. pose proof (Qlt_floor x) as B.
  assert (C : (inject_Z (Qfloor x) < inject_Z (z + 1))%Q).
  { rewrite inject_Z_plus. apply (Qle_lt_trans _ x); assumption. }
  assert (D : (inject_Z z < inject_Z (Qfloor x + 1))%Q).
  { apply (Qle_lt_trans _ x); assumption. }
  rewrite <- Zlt_Qlt in C, D. lia.
Qed.

Lemma scaled_window (k j : nat) (u : Q) :
  (0 < k)%nat ->
  in_window k j u
  <-> (inject_Z (Z.of_nat j) <= u * inject_Z (Z.of_nat k))%Q
      /\ (u * inject_Z (Z.of_nat k) < inject_Z (Z.of_nat j) + 1)%Q.
Proof.
  intro Hk. unfold in_window.
  set (K := inject_Z (Z.of_nat k)). set (J := inject_Z (Z.of_nat j)).
  assert (P : (0 < K)%Q) by (unfold K, Qlt; simpl; lia).
  assert (N : ~ (K == 0)%Q) by (intro E; rewrite E in P; discriminate).
  split; intros [A B]; split.
  - apply (Qmult_le_r _ _ K P) in A.
    assert (E : (J / K * K == J)%Q) by (field; exact N).
    rewrite E in A. exact A.
  - apply (Qmult_lt_r _ _ K P) in B.
    assert (E : ((J + 1) / K * K == J + 1)%Q) by (field; exact N).
    rewrite E in B. exact B.
  - apply Qle_shift_div_r; assumption.
  - apply Qlt_shift_div_l; assumption.
Qed.

Lemma choice_index_window (g : Rng) (k i j : nat) :
  (0 < k)%nat ->
  choice_index g k i = j <-> in_window k j (py_random g i).
Proof.
  intro Hk. rewrite scaled_window by exact Hk. unfold choice_index.
  set (x := (py_random g i * inject_Z (Z.of_nat k))%Q).
  destruct (py_random_unit g i) as [U0 U1].
  assert (X0 : (0 <= x)%Q).
  { unfold x. apply Qmult_le_0_compat; [exact U0|]. unfold Qle. simpl. lia. }
  assert (F0 : (0 <= Qfloor x)%Z).
  { pose proof (Qfloor_resp_le _ _ X0) as H. exact H. }
  split.
  - intro E.
    assert (Ez : Qfloor x = Z.of_nat j) by lia.
    rewrite <- Ez. split; [apply Qfloor_le|].
    pose proof (Qlt_floor x) as B. rewrite inject_Z_plus in B. exact B.
  - intros [A B]. rewrite (Qfloor_unique x (Z.of_nat j) A B). lia.
Qed.

Lemma choice_index_lt (g : Rng) (k i : nat) :
  (0 < k)%nat -> (choice_index g k i < k)%nat.
Proof.
  intro Hk.
  destruct (proj1 (choice_index_window g k i (choice_index g k i) Hk) eq_refl)
    as [A _].
  destruct (py_random_unit g i) as [_ U1].
  assert (P : (0 < inject_Z (Z.of_nat k))%Q) by (unfold Qlt; simpl; lia).
  assert (L : (inject_Z (Z.of_nat (choice_index g k i)) / inject_Z (Z.of_nat k) < 1)%Q)
    by (apply (Qle_lt_trans _ (py_random g i)); assumption).
  apply (Qmult_lt_r _ _ _ P) in L.
  assert (N : ~ (inject_Z (Z.of_nat k) == 0)%Q)
    by (intro E; rewrite E in P; discriminate).
  assert (E : (inject_Z (Z.of_nat (choice_index g k i)) / inject_Z (Z.of_nat k)
               * inject_Z (Z.of_nat k)
               == inject_Z (Z.of_nat (choice_index g k i)))%Q)
    by (field; exact N).
  rewrite E, Qmult_1_l in L. rewrite <- Zlt_Qlt in L. lia.
Qed.

Lemma random_choices_nonempty {A : Type} (population : list A) (n : nat)
  (g : Rng) :
  population <> [] ->
  exists out,
    random_choices population n g = (Ok out, skip_random n g)
    /\ List.length out = n
    /\ (forall i, (i < n)%nat ->
          nth_error out i
          = nth_error population (choice_index g (List.length population) i))
    /\ Forall (fun x => In x population) out.
Proof.
  intro Hne. destruct population as [|d rest] eqn:Ep; [contradiction|].
  rewrite <- Ep in *. clear Hne.
  assert (Hk : (0 < List.length population)%nat) by (rewrite Ep; simpl; lia).
  pose (pick := fun i => nth (choice_index g (List.length population) i) population d).
  assert (R : forall i,
             nth_error population (choice_index g (List.length population) i)
             = Some (pick i)).
  { intro i. apply nth_error_nth'. apply choice_index_lt. exact Hk. }
  exists (map pick (seq 0 n)). split; [|split; [|split]].
  - unfold random_choices.
    rewrite (map_exc_total _ pick); [reflexivity|].
    intros i _. rewrite R. reflexivity.
  - rewrite length_map, length_seq. reflexivity.
  - intros i Hi. rewrite (nth_error_map_seq pick) by exact Hi.
    symmetry. apply R.
  - apply Forall_forall. intros x Hx. apply in_map_iff in Hx.
    destruct Hx as (i & <- & _). apply nth_In. apply choice_index_lt. exact Hk.
Qed.


Lemma as_list_pairs (pd : Pandas) (pairs : list (json * json)) :
  pairs <> [] ->
  Synthesizer._as_list pd (JArr (map pair_json pairs))
  = Ok (map (fun p => Synthesizer.py_str pd (fst p)) pairs).
Proof.
  intro Hne. destruct pairs as [|p0 rest] eqn:E; [contradiction|].
  rewrite <- E. unfold Synthesizer._as_list.
  assert (T : Synthesizer.truthy (JArr (map pair_json pairs)) = true)
    by (rewrite E; reflexivity).
  rewrite T. cbn [negb iterate bind].
  assert (I0 : Synthesizer.index0 (JArr (map pair_json pairs)) = Ok (pair_json p0))
    by (rewrite E; reflexivity).
  rewrite (map_exc_total _
             (fun x => Synthesizer.py_str pd
                         (match x with JArr (y :: _) => y | _ => x end))).
  - rewrite map_map. reflexivity.
  - intros x Hx. apply in_map_iff in Hx. destruct Hx as (p & <- & _).
    rewrite I0. reflexivity.
Qed.




(** ** The row generator *)

Lemma for_each_check_column_ok (l : list json) :
  for_each Validators.check_column l = Ok tt -> Forall named_and_typed l.
Proof.
  induction l as [|col l IH]; simpl; intro H; [constructor|].
  destruct (Validators.check_column col) as [[]|e] eqn:E; simpl in H;
    [|discriminate].
  constructor; [|apply IH; exact H].
  unfold Validators.check_column, Validators.has_name_and_type, Dict.mem in E.
  destruct col; simpl in E; try discriminate.
  destruct (Dict.get "name" kv) as [nm|] eqn:En; simpl in E; [|discriminate].
  destruct (Dict.get "type" kv) as [ty|] eqn:Et; simpl in E; [|discriminate].
  exists kv, nm, ty. repeat split; assumption.
Qed.

Lemma setitem_fresh (k : json) (v : Synthesizer.values)
  (cols : list (json * Synthesizer.values)) :
  forallb (fun k' => negb (Synthesizer.key_eqb k' k)) (map fst cols) = true ->
  map fst (Synthesizer.setitem k v cols) = map fst cols ++ [k].
Proof.
  induction cols as [|[k' v'] cols IH]; simpl; intro H; [reflexivity|].
  apply andb_prop in H. destruct H as [H1 H2].
  destruct (Synthesizer.key_eqb k' k); [discriminate|].
  simpl. f_equal. apply IH. exact H2.
Qed.

Lemma add_columns_names (pd : Pandas) (rows : nat) (l : list json) :
  forall (acc : list (json * Synthesizer.values)) (g : Rng),
    Forall named_and_typed l ->
    Forall (samples pd rows) l ->
    forallb Synthesizer.hashable (map col_name l) = true ->
    distinct_from (map fst acc) (map col_name l) = true ->
    exists table g',
      Synthesizer.add_columns pd rows l acc g = (Ok table, g')
      /\ map fst table = map fst acc ++ map col_name l.
Proof.
  induction l as [|col l IH]; intros acc g Hw Hs Hh Hd.
  - exists acc, g. split; [reflexivity|]. simpl. rewrite app_nil_r. reflexivity.
  - inversion Hw as [|? ? (kv & nm & ty & Ec & En & Et) Hw']; subst.
    inversion Hs as [|? ? Hs1 Hs']; subst.
    simpl in Hh, Hd. apply andb_prop in Hh. destruct Hh as [Hh1 Hh2].
    apply andb_prop in Hd. destruct Hd as [Hd1 Hd2].
    assert (Nm : col_name (JObj kv) = nm)
      by (unfold col_name, subscript, Dict.item; rewrite En; reflexivity).
    assert (Ty : col_type (JObj kv) = ty)
      by (unfold col_type, subscript, Dict.item; rewrite Et; reflexivity).
    rewrite Nm in *.
    destruct (Hs1 g) as (v & g1 & Hv). rewrite Ty in Hv.
    destruct (IH (Synthesizer.setitem nm v acc) g1 Hw' Hs' Hh2) as (t & g2 & R & N).
    + rewrite setitem_fresh by exact Hd1. exact Hd2.
    + exists t, g2. split.
      * simpl. unfold rbind at 1. unfold Synthesizer.add_column, rbind, lift.
        unfold subscript, Dict.item. rewrite Et, Hv, En, Hh1. exact R.
      * rewrite N, setitem_fresh by exact Hd1.
        rewrite <- app_assoc. simpl. rewrite Nm. reflexivity.
Qed.





(** ** The profiler *)

Lemma cell_eqb_refl (a : cell) : Profiler.cell_eqb a a = true.
Proof.
  destruct a; simpl.
  - apply Qeq_bool_iff. apply Qeq_refl.
  - apply String.eqb_refl.
Qed.

Lemma cell_eqb_ext (a b : cell) :
  Profiler.cell_eqb a b = true ->
  forall x, Profiler.cell_eqb a x = Profiler.cell_eqb b x.
Proof.
  intros H x. destruct a as [p|p], b as [q|q]; simpl in H; try discriminate;
    destruct x as [r|r]; simpl; try reflexivity.
  - apply Qeq_bool_iff in H. apply bool_eq_iff.
    rewrite !Qeq_bool_iff. rewrite H. reflexivity.
  - apply String.eqb_eq in H. subst. reflexivity.
Qed.

Lemma count_ext (a b : cell) (l : list cell) :
  Profiler.cell_eqb a b = true -> Profiler.count a l = Profiler.count b l.
Proof.
  intro H. unfold Profiler.count. f_equal.
  apply filter_ext. apply cell_eqb_ext. exact H.
Qed.

Lemma insert_desc_Forall (P : cell * nat -> Prop) (e : cell * nat)
  (l : list (cell * nat)) :
  P e -> Forall P l -> Forall P (Profiler.insert_desc e l).
Proof.
  intros He Hl. induction Hl as [|e' l He' Hl IH]; simpl.
  - constructor; [exact He | constructor].
  - destruct (snd e' <=? snd e)%nat.
    + constructor; [exact He|]. constructor; assumption.
    + constructor; assumption.
Qed.

Lemma value_counts_counted (s : column) :
  Forall (counted (Profiler.dropna s)) (Profiler.value_counts s).
Proof.
  unfold Profiler.value_counts.
  induction (Profiler.distinct (Profiler.dropna s)) as [|k ks IH]; simpl.
  - constructor.
  - apply insert_desc_Forall; [reflexivity | exact IH].
Qed.

Lemma vc_item_counted (l : list cell) (vc : list (cell * nat)) (k : cell) :
  Forall (counted l) vc -> In k (map fst vc) ->
  Profiler.vc_item k vc = Ok (Profiler.count k l).
Proof.
  intros Hvc. induction Hvc as [|[k' n] vc He Hvc IH]; simpl; intro Hin.
  - contradiction.
  - destruct (Profiler.cell_eqb k' k) eqn:E.
    + unfold counted in He. simpl in He. rewrite He.
      f_equal. apply count_ext. exact E.
    + destruct Hin as [-> | Hin]; [|apply IH; exact Hin].
      rewrite cell_eqb_refl in E. discriminate.
Qed.

Lemma In_firstn {A : Type} (n : nat) (l : list A) (x : A) :
  In x (firstn n l) -> In x l.
Proof.
  revert l. induction n as [|n IH]; intros [|y l]; simpl; try contradiction.
  intros [-> | H]; [left; reflexivity | right; apply IH; exact H].
Qed.

Lemma sample_values_total (s : column) :
  map_exc (fun k =>
             n <- Profiler.vc_item k (Profiler.value_counts s) ;;
             Ok (JArr [Profiler.cell_json k;
                       JNum (inject_Z (Z.of_nat n) / Profiler.len_Q s)%Q]))
          (map fst (firstn 20 (Profiler.value_counts s)))
  = Ok (stored_sample_values s).
Proof.
  unfold stored_sample_values. apply map_exc_total. intros k Hk.
  rewrite (vc_item_counted (Profiler.dropna s)).
  - reflexivity.
  - apply value_counts_counted.
  - apply in_map_iff in Hk. destruct Hk as (e & <- & He).
    apply in_map. apply (In_firstn 20). exact He.
Qed.

(** What [_profile_column] returns for a column that [df] holds once, case
    by case on the inferred type. *)
Lemma profile_column_cases (pd : Pandas) (df : Profiler.frame) (col : string)
  (s : column) :
  Profiler.getitem df col = Ok s ->
  exists extra,
    Profiler._profile_column pd df col
    = Ok ([("name", JStr col);
           ("type", JStr (Profiler._infer_col_type pd s));
           ("nullable", JBool (existsb (fun x => negb (Profiler.notna x)) s))]
          ++ extra)
    /\ (Profiler._infer_col_type pd s = "numeric" ->
        extra = [("mean", Profiler.float_json (Profiler.mean (Profiler.numbers pd s)));
                 ("std", Profiler.float_json (Profiler.std0 pd (Profiler.numbers pd s)));
                 ("min", Profiler.float_json (Profiler.series_min (Profiler.numbers pd s)));
                 ("max", Profiler.float_json (Profiler.series_max (Profiler.numbers pd s)))])
    /\ (Profiler._infer_col_type pd s = "categorical" ->
        extra = [("unique", JNum (Profiler.len_Q (Profiler.value_counts s)));
                 ("sample_values", JArr (stored_sample_values s))]).
Proof.
  intro Hs. unfold Profiler._profile_column. rewrite Hs. cbn [bind].
  unfold Profiler.update.
  destruct (String.eqb (Profiler._infer_col_type pd s) "numeric") eqn:E1.
  - eexists. split; [reflexivity|]. split; [reflexivity|].
    apply String.eqb_eq in E1. rewrite E1. discriminate.
  - destruct (String.eqb (Profiler._infer_col_type pd s) "categorical") eqn:E2.
    + rewrite sample_values_total. cbn [bind].
      eexists. split; [reflexivity|]. split; [|reflexivity].
      apply String.eqb_eq in E2. rewrite E2. discriminate.
    + apply String.eqb_neq in E1, E2.
      destruct (String.eqb (Profiler._infer_col_type pd s) "datetime").
      * eexists. split; [reflexivity|]. split; intro; contradiction.
      * exists []. rewrite app_nil_r.
        split; [reflexivity|]. split; intro; contradiction.
Qed.

Lemma cell_json_inj (a b : cell) :
  Profiler.cell_json a = Profiler.cell_json b -> a = b.
Proof.
  destruct a, b; simpl; intro H; try discriminate; injection H as <-; reflexivity.
Qed.

Lemma dropna_no_missing (s : column) :
  no_missing s = true -> List.length (Profiler.dropna s) = List.length s.
Proof.
  unfold no_missing. induction s as [|[c|] s IH]; simpl; intro H.
  - reflexivity.
  - f_equal. apply IH. exact H.
  - discriminate.
Qed.

Lemma stored_sample_values_frequency (s : column) (k : cell) (f : Q) :
  In (JArr [Profiler.cell_json k; JNum f]) (stored_sample_values s) ->
  f = frequency k s (List.length s).
Proof.
  unfold stored_sample_values. intro H. apply in_map_iff in H.
  destruct H as (k' & E & _). injection E as Ek Ef.
  apply cell_json_inj in Ek. subst k'. symmetry. exact Ef.
Qed.

(** C2, as amended.  For a column that [_infer_col_type] classifies as
    categorical, [_profile_column] stores under [sample_values] the 20 first
    values of the value counts, each with its number of occurrences divided
    by the length of the column, missing values included; this is the number
    of non-missing values when the column has no missing value. *)
Theorem profile_categorical_frequencies (pd : Pandas) (df : Profiler.frame)
  (col : string) (s : column)
  (Hs : Profiler.getitem df col = Ok s)
  (Hc : Profiler._infer_col_type pd s = "categorical") :
  (exists d,
      Profiler._profile_column pd df col = Ok d
      /\ Dict.get "type" d = Some (JStr "categorical")
      /\ Dict.get "sample_values" d = Some (JArr (stored_sample_values s)))
  /\ frequencies_over (fun s => List.length s) pd df col
  /\ (no_missing s = true ->
      frequencies_over (fun s => List.length (Profiler.dropna s)) pd df col).
Proof.
  destruct (profile_column_cases pd df col s Hs) as (extra & R & _ & E).
  specialize (E Hc). subst extra. rewrite Hc in R.
  assert (F : frequencies_over (fun s => List.length s) pd df col).
  { intros s' d sv k f Hs' Hd _ Hsv Hin.
    rewrite Hs in Hs'. injection Hs' as <-.
    rewrite R in Hd. injection Hd as <-.
    cbn in Hsv. injection Hsv as <-.
    rewrite (stored_sample_values_frequency s k f Hin). apply Qeq_refl. }
  split; [|split].
  - eexists. split; [exact R|]. split; reflexivity.
  - exact F.
  - intros Hm s' d sv k f Hs' Hd Ht Hsv Hin.
    pose proof (F s' d sv k f Hs' Hd Ht Hsv Hin) as G. cbv beta in G.
    rewrite Hs in Hs'. injection Hs' as <-.
    cbv beta. rewrite (dropna_no_missing s Hm). exact G.
Qed.

(** A column of colours, one of them missing, beside a column of numbers. *)
Lemma profile_categorical_frequencies_witness :
  exists d,
    Profiler._profile_column Iso.pandas
      (Profiler.mkFrame 4
         [("id", [Some (CNum 1); Some (CNum 2); Some (CNum 3); Some (CNum 4)]);
          ("colour", [Some (CStr "red"); Some (CStr "red"); Some (CStr "red");
                      None])])
      "colour" = Ok d
    /\ Dict.get "type" d = Some (JStr "categorical")
    /\ Dict.get "sample_values" d
       = Some (JArr (stored_sample_values
                       [Some (CStr "red"); Some (CStr "red");
                        Some (CStr "red"); None])).
Proof.
  apply (proj1 (profile_categorical_frequencies Iso.pandas
                  (Profiler.mkFrame 4
                     [("id", [Some (CNum 1); Some (CNum 2); Some (CNum 3);
                              Some (CNum 4)]);
                      ("colour", [Some (CStr "red"); Some (CStr "red");
                                  Some (CStr "red"); None])])
                  "colour"
                  [Some (CStr "red"); Some (CStr "red"); Some (CStr "red"); None]
                  eq_refl eq_refl)).
Defined.

(** C2, as first stated, fails: with three "red" and one missing value the
    stored frequency of "red" is 3/4, and its share of the non-missing
    values is 1. *)
Lemma profile_frequency_counts_missing_rows :
  ~ frequencies_over (fun s => List.length (Profiler.dropna s)) Iso.pandas
      (Profiler.mkFrame 4
         [("id", [Some (CNum 1); Some (CNum 2); Some (CNum 3); Some (CNum 4)]);
          ("colour", [Some (CStr "red"); Some (CStr "red"); Some (CStr "red");
                      None])])
      "colour".
Proof.
  intro H.
  specialize (H [Some (CStr "red"); Some (CStr "red"); Some (CStr "red"); None]
                _ [JArr [JStr "red"; JNum (3 # 4)]] (CStr "red") (3 # 4)%Q
                eq_refl eq_refl eq_refl eq_refl (or_introl eq_refl)).
  vm_compute in H. discriminate.
Qed.

Lemma filter_label_absent (col : string) (data : list (string * column)) :
  ~ In col (map fst data) ->
  filter (fun p => String.eqb (fst p) col) data = [].
Proof.
  induction data as [|[k v] data IH]; simpl; intro H; [reflexivity|].
  destruct (String.eqb_spec k col) as [E|E].
  - exfalso. apply H. left. exact E.
  - apply IH. intro I. apply H. right. exact I.
Qed.

Lemma getitem_unique_label (df : Profiler.frame) (col : string) :
  NoDup (Profiler.labels df) -> In col (Profiler.labels df) ->
  exists s, Profiler.getitem df col = Ok s.
Proof.
  unfold Profiler.labels, Profiler.getitem.
  induction (Profiler.data df) as [|[k v] data IH]; simpl; intros Hn Hi.
  - contradiction.
  - inversion Hn as [|? ? Hk Hn']; subst.
    destruct (String.eqb_spec k col) as [E|E].
    + subst k. rewrite (filter_label_absent col data Hk).
      exists v. reflexivity.
    + destruct Hi as [Hi|Hi]; [contradiction|]. apply IH; assumption.
Qed.

Lemma profile_column_named_and_typed (pd : Pandas) (df : Profiler.frame)
  (col : string) (d : list (string * json)) :
  Profiler._profile_column pd df col = Ok d -> named_and_typed (JObj d).
Proof.
  intro H.
  destruct (Profiler.getitem df col) as [s|e] eqn:Hs.
  - destruct (profile_column_cases pd df col s Hs) as (extra & R & _).
    rewrite R in H. injection H as <-.
    eexists. eexists. eexists. split; [reflexivity|]. split; reflexivity.
  - unfold Profiler._profile_column in H. rewrite Hs in H. discriminate.
Qed.

Lemma map_exc_Forall {A B : Type} (f : A -> exc B) (P : B -> Prop)
  (xs : list A) (ys : list B) :
  (forall x y, f x = Ok y -> P y) -> map_exc f xs = Ok ys -> Forall P ys.
Proof.
  intro Hf. revert ys. induction xs as [|x xs IH]; simpl; intros ys H.
  - injection H as <-. constructor.
  - destruct (f x) as [y|e] eqn:E; simpl in H; [|discriminate].
    destruct (map_exc f xs) as [zs|e]; simpl in H; [|discriminate].
    injection H as <-. constructor; [apply (Hf x); exact E | apply IH; reflexivity].
Qed.

Lemma map_exc_returns {A B : Type} (f : A -> exc B) (xs : list A) :
  (forall x, In x xs -> exists y, f x = Ok y) -> exists ys, map_exc f xs = Ok ys.
Proof.
  induction xs as [|x xs IH]; simpl; intro H.
  - exists []. reflexivity.
  - destruct (H x (or_introl eq_refl)) as (y & E). rewrite E.
    destruct IH as (ys & R); [intros z Hz; apply H; right; exact Hz|].
    rewrite R. exists (y :: ys). reflexivity.
Qed.

Lemma for_each_named_and_typed (l : list json) :
  Forall named_and_typed l -> for_each Validators.check_column l = Ok tt.
Proof.
  induction 1 as [|col l (kv & nm & ty & -> & En & Et) Hl IH]; simpl.
  - reflexivity.
  - unfold Validators.check_column at 1. unfold Validators.has_name_and_type, Dict.mem.
    rewrite En, Et. simpl. exact IH.
Qed.

(** C4. Whatever document [profile] returns, [validate_schema] accepts it:
    the document has a [columns] key and every column descriptor in it has a
    [name] and a [type].  And [profile] does return a document for every
    table whose column labels are distinct. *)
Theorem profile_then_validate (pd : Pandas) (df : Profiler.frame) :
  (NoDup (Profiler.labels df) -> exists doc, Profiler.profile pd df = Ok doc)
  /\ (forall doc,
         Profiler.profile pd df = Ok doc ->
         Validators.validate_schema doc = (doc, Ok tt)
         /\ Dict.mem "columns" doc = true
         /\ Forall named_and_typed (descriptors doc)).
Proof.
  split.
  - intro Hn. unfold Profiler.profile.
    destruct (map_exc_returns (Profiler._profile_column pd df) (Profiler.labels df))
      as (ds & R).
    + intros col Hc.
      destruct (getitem_unique_label df col Hn Hc) as (s & Hs).
      destruct (profile_column_cases pd df col s Hs) as (extra & E & _).
      eexists. exact E.
    + rewrite R. eexists. reflexivity.
  - intros doc H. unfold Profiler.profile in H.
    destruct (map_exc (Profiler._profile_column pd df) (Profiler.labels df))
      as [ds|e] eqn:R; simpl in H; [|discriminate].
    injection H as <-.
    assert (F : Forall named_and_typed (map JObj ds)).
    { apply Forall_map.
      apply (map_exc_Forall _ _ _ _ (profile_column_named_and_typed pd df) R). }
    split; [|split].
    + unfold Validators.validate_schema. f_equal.
      cbn. apply for_each_named_and_typed. exact F.
    + reflexivity.
    + exact F.
Qed.

(** The table of the repository's test: ages and colours. *)
Lemma profile_then_validate_witness :
  exists doc,
    Profiler.profile Iso.pandas
      (Profiler.mkFrame 3
         [("age", [Some (CNum 20); Some (CNum 30); Some (CNum 40)]);
          ("color", [Some (CStr "red"); Some (CStr "blue"); Some (CStr "blue")])])
    = Ok doc
    /\ Validators.validate_schema doc = (doc, Ok tt).
Proof.
  destruct (proj1 (profile_then_validate Iso.pandas
                     (Profiler.mkFrame 3
                        [("age", [Some (CNum 20); Some (CNum 30); Some (CNum 40)]);
                         ("color", [Some (CStr "red"); Some (CStr "blue");
                                    Some (CStr "blue")])])))
    as (doc & R).
  - repeat constructor; simpl; intuition discriminate.
  - exists doc. split; [exact R|].
    apply (proj2 (profile_then_validate Iso.pandas _) doc R).
Defined.

Lemma numbers_spec (pd : Pandas) (s : column) (q : Q) :
  In q (Profiler.numbers pd s)
  <-> exists c, In (Some c) s /\ Profiler.to_numeric pd c = Some (Some q).
Proof.
  induction s as [|[c|] s IH]; simpl.
  - split; [contradiction | intros (c & [] & _)].
  - destruct (Profiler.to_numeric pd c) as [[x|]|] eqn:E.
    + simpl. rewrite IH. split.
      * intros [-> | (c' & H1 & H2)].
        -- exists c. split; [left; reflexivity | exact E].
        -- exists c'. split; [right; exact H1 | exact H2].
      * intros (c' & [H1|H1] & H2).
        -- injection H1 as <-. rewrite E in H2. injection H2 as ->.
           left. reflexivity.
        -- right. exists c'. split; assumption.
    + rewrite IH. split.
      * intros (c' & H1 & H2). exists c'. split; [right; exact H1 | exact H2].
      * intros (c' & [H1|H1] & H2).
        -- injection H1 as <-. rewrite E in H2. discriminate.
        -- exists c'. split; assumption.
    + rewrite IH. split.
      * intros (c' & H1 & H2). exists c'. split; [right; exact H1 | exact H2].
      * intros (c' & [H1|H1] & H2).
        -- injection H1 as <-. rewrite E in H2. discriminate.
        -- exists c'. split; assumption.
  - rewrite IH. split.
    + intros (c' & H1 & H2). exists c'. split; [right; exact H1 | exact H2].
    + intros (c' & [H1|H1] & H2); [discriminate|].
      exists c'. split; assumption.
Qed.

Lemma fold_min_spec (rest : list Q) :
  forall x,
    let m := fold_left (fun a b => if Qltb b a then b else a) rest x in
    In m (x :: rest) /\ forall y, In y (x :: rest) -> (m <= y)%Q.
Proof.
  induction rest as [|z rest IH]; intro x; simpl.
  - split; [left; reflexivity|]. intros y [<- | []]. apply Qle_refl.
  - destruct (Qltb z x) eqn:E.
    + destruct (IH z) as [I L]. split.
      * right. exact I.
      * intros y [<- | Hy]; [|apply L; exact Hy].
        apply Qltb_true in E.
        apply (Qle_trans _ z); [apply L; left; reflexivity | apply Qlt_le_weak; exact E].
    + destruct (IH x) as [I L]. split.
      * destruct I as [I|I]; [left; exact I | right; right; exact I].
      * intros y [<- | [<- | Hy]].
        -- apply L. left. reflexivity.
        -- apply Qltb_false in E.
           apply (Qle_trans _ x); [apply L; left; reflexivity | exact E].
        -- apply L. right. exact Hy.
Qed.

Lemma fold_max_spec (rest : list Q) :
  forall x,
    let m := fold_left (fun a b => if Qltb a b then b else a) rest x in
    In m (x :: rest) /\ forall y, In y (x :: rest) -> (y <= m)%Q.
Proof.
  induction rest as [|z rest IH]; intro x; simpl.
  - split; [left; reflexivity|]. intros y [<- | []]. apply Qle_refl.
  - destruct (Qltb x z) eqn:E.
    + destruct (IH z) as [I L]. split.
      * right. exact I.
      * intros y [<- | Hy]; [|apply L; exact Hy].
        apply Qltb_true in E.
        apply (Qle_trans _ z); [apply Qlt_le_weak; exact E | apply L; left; reflexivity].
    + destruct (IH x) as [I L]. split.
      * destruct I as [I|I]; [left; exact I | right; right; exact I].
      * intros y [<- | [<- | Hy]].
        -- apply L. left. reflexivity.
        -- apply Qltb_false in E.
           apply (Qle_trans _ x); [exact E | apply L; left; reflexivity].
        -- apply L. right. exact Hy.
Qed.

Lemma numeric_statistics (pd : Pandas) (xs : list Q) :
  xs <> [] ->
  Profiler.mean xs = Some (Profiler.Qsum xs / Profiler.len_Q xs)%Q
  /\ Profiler.std0 pd xs = Some (np_sqrt pd (population_variance xs))
  /\ exists lo hi,
      Profiler.series_min xs = Some lo /\ Profiler.series_max xs = Some hi
      /\ In lo xs /\ In hi xs
      /\ forall x, In x xs -> (lo <= x)%Q /\ (x <= hi)%Q.
Proof.
  intro H. destruct xs as [|x rest]; [contradiction|].
  split; [reflexivity|]. split; [reflexivity|].
  destruct (fold_min_spec rest x) as [I1 L1].
  destruct (fold_max_spec rest x) as [I2 L2].
  eexists. eexists. split; [reflexivity|]. split; [reflexivity|].
  split; [exact I1|]. split; [exact I2|].
  intros y Hy. split; [apply L1 | apply L2]; exact Hy.
Qed.

Lemma one_two_three_is_numeric (pd : Pandas) :
  samples_within pd ->
  Profiler._infer_col_type pd [Some (CNum 1); Some (CNum 2); Some (CNum 3)]
  = "numeric".
Proof.
  intro Hin. unfold Profiler._infer_col_type. cbn [Profiler.dropna].
  assert (F : forallb (Profiler.parses pd)
                (sample42 pd (Profiler.sample_size [CNum 1; CNum 2; CNum 3])
                   [CNum 1; CNum 2; CNum 3]) = true).
  { apply forallb_forall. intros c Hc. apply Hin in Hc.
    destruct Hc as [<- | [<- | [<- | []]]]; reflexivity. }
  rewrite F. reflexivity.
Qed.

(** C8. For a column that [_infer_col_type] classifies as numeric,
    [_profile_column] records, over the values [xs] of the whole column that
    [pd.to_numeric] reads as numbers (missing and unreadable values left
    out), the mean, the standard deviation, the minimum and the maximum.
    When [xs] is not empty the mean is the sum over the count, the standard
    deviation is the square root of the population variance (the squared
    deviations summed and divided by the count [N], not [N - 1]), and the
    minimum and the maximum are values of [xs] that bound all of [xs].  In
    particular the column [1, 2, 3], for any sampler that returns values of
    the series, is numeric with min 1, max 3 and mean 2. *)
Theorem profile_numeric_statistics (pd : Pandas) (df : Profiler.frame)
  (col : string) (s : column)
  (Hs : Profiler.getitem df col = Ok s)
  (Hn : Profiler._infer_col_type pd s = "numeric") :
  let xs := Profiler.numbers pd s in
  Profiler._profile_column pd df col
  = Ok [("name", JStr col); ("type", JStr "numeric");
        ("nullable", JBool (existsb (fun x => negb (Profiler.notna x)) s));
        ("mean", Profiler.float_json (Profiler.mean xs));
        ("std", Profiler.float_json (Profiler.std0 pd xs));
        ("min", Profiler.float_json (Profiler.series_min xs));
        ("max", Profiler.float_json (Profiler.series_max xs))]
  /\ (forall q, In q xs
                <-> exists c, In (Some c) s
                              /\ Profiler.to_numeric pd c = Some (Some q))
  /\ (xs <> [] ->
      Profiler.mean xs = Some (Profiler.Qsum xs / Profiler.len_Q xs)%Q
      /\ Profiler.std0 pd xs = Some (np_sqrt pd (population_variance xs))
      /\ exists lo hi,
          Profiler.series_min xs = Some lo /\ Profiler.series_max xs = Some hi
          /\ In lo xs /\ In hi xs
          /\ forall x, In x xs -> (lo <= x)%Q /\ (x <= hi)%Q)
  /\ (forall pd' : Pandas,
         samples_within pd' ->
         exists m sd,
           Profiler._profile_column pd'
             (Profiler.mkFrame 3
                [("x", [Some (CNum 1); Some (CNum 2); Some (CNum 3)])]) "x"
           = Ok [("name", JStr "x"); ("type", JStr "numeric");
                 ("nullable", JBool false);
                 ("mean", JNum m); ("std", sd);
                 ("min", JNum 1); ("max", JNum 3)]
           /\ (m == 2)%Q).
Proof.
  intro xs. split; [|split; [|split]].
  - destruct (profile_column_cases pd df col s Hs) as (extra & R & E & _).
    specialize (E Hn). subst extra. rewrite Hn in R. exact R.
  - intro q. apply numbers_spec.
  - apply numeric_statistics.
  - intros pd' Hin.
    destruct (profile_column_cases pd'
                (Profiler.mkFrame 3
                   [("x", [Some (CNum 1); Some (CNum 2); Some (CNum 3)])])
                "x" [Some (CNum 1); Some (CNum 2); Some (CNum 3)] eq_refl)
      as (extra & R & E & _).
    rewrite (one_two_three_is_numeric pd' Hin) in R, E.
    specialize (E eq_refl). subst extra.
    eexists. eexists. split; [exact R|]. reflexivity.
Qed.

(** Ages read from text, one of them missing. *)
Lemma profile_numeric_statistics_witness :
  Profiler._profile_column Iso.pandas
    (Profiler.mkFrame 4
       [("age", [Some (CStr "20"); Some (CStr "40"); None; Some (CStr "30")])])
    "age"
  = Ok [("name", JStr "age"); ("type", JStr "numeric");
        ("nullable", JBool true);
        ("mean", JNum (90 # 3)); ("std", JNum (8164965809 # 1000000000));
        ("min", JNum 20); ("max", JNum 40)].
Proof.
  apply (proj1 (profile_numeric_statistics Iso.pandas
                  (Profiler.mkFrame 4
                     [("age", [Some (CStr "20"); Some (CStr "40"); None;
                               Some (CStr "30")])])
                  "age"
                  [Some (CStr "20"); Some (CStr "40"); None; Some (CStr "30")]
                  eq_refl eq_refl)).
Defined.

(** * Further properties *)

(** ** The text sampler *)

Lemma random_choices_single {A : Type} (x : A) (n : nat) (g : Rng) :
  random_choices [x] n g = (Ok (repeat x n), skip_random n g).
Proof.
  assert (Hne : [x] <> []) by discriminate.
  destruct (random_choices_nonempty [x] n g Hne) as (out & R & L & _ & F).
  rewrite R. do 2 f_equal.
  rewrite <- L. apply Forall_eq_repeat.
  apply Forall_forall. intros y Hy.
  rewrite Forall_forall in F. destruct (F y Hy) as [E | []]. exact E.
Qed.

Lemma as_list_falsy (pd : Pandas) (v : json) :
  Synthesizer.truthy v = false -> Synthesizer._as_list pd v = Ok [].
Proof. intro H. unfold Synthesizer._as_list. rewrite H. reflexivity. Qed.

(** X1. When [sample_values] is absent or falsy (null, an empty list, an
    empty string, zero, false, an empty dict), the text sampler returns [n]
    copies of the placeholder "lorem ipsum", whatever the draws, and consumes
    [n] draws of [random.random()]. *)
Theorem sample_text_placeholder (pd : Pandas) (c : json) (n : nat) (g : Rng)
  (sv : json)
  (Hget : Synthesizer.get c "sample_values" JNull = Ok sv)
  (Hsv : Synthesizer.truthy sv = false) :
  Synthesizer._sample_text pd c n g
  = (Ok (repeat "lorem ipsum" n), skip_random n g).
Proof.
  unfold Synthesizer._sample_text, rbind, lift.
  rewrite Hget, (as_list_falsy pd sv Hsv).
  apply random_choices_single.
Qed.

(** A text descriptor as the profiler writes it. *)
Lemma sample_text_placeholder_witness :
  Synthesizer._sample_text Iso.pandas
    (JObj [("name", JStr "note"); ("type", JStr "text");
           ("nullable", JBool false)]) 3 Iso.ramp
  = (Ok (repeat "lorem ipsum" 3), skip_random 3 Iso.ramp).
Proof.
  apply (sample_text_placeholder Iso.pandas
           (JObj [("name", JStr "note"); ("type", JStr "text");
                  ("nullable", JBool false)]) 3 Iso.ramp JNull);
    reflexivity.
Defined.

(** X2. The text sampler and the categorical sampler differ only in their
    fallback: whenever [sample_values] reads as a non-empty list of values,
    both return the same values (or the same error) and leave the generators
    in the same state. *)
Theorem sample_text_is_categorical_on_values (pd : Pandas) (c : json)
  (n : nat) (g : Rng) (sv : json) (cats : list string)
  (Hget : Synthesizer.get c "sample_values" JNull = Ok sv)
  (Hcats : Synthesizer._as_list pd sv = Ok cats)
  (Hne : cats <> []) :
  Synthesizer._sample_text pd c n g = Synthesizer._sample_categorical pd c n g.
Proof.
  unfold Synthesizer._sample_text, Synthesizer._sample_categorical,
    rbind, lift, ret.
  rewrite Hget, Hcats. destruct cats; [contradiction | reflexivity].
Qed.

Lemma sample_text_is_categorical_on_values_witness :
  Synthesizer._sample_text Iso.pandas
    (JObj [("sample_values", JArr [JStr "yes"; JStr "no"])]) 4 Iso.ramp
  = Synthesizer._sample_categorical Iso.pandas
      (JObj [("sample_values", JArr [JStr "yes"; JStr "no"])]) 4 Iso.ramp.
Proof.
  apply (sample_text_is_categorical_on_values Iso.pandas
           (JObj [("sample_values", JArr [JStr "yes"; JStr "no"])]) 4 Iso.ramp
           (JArr [JStr "yes"; JStr "no"]) ["yes"; "no"]);
    [reflexivity | reflexivity | discriminate].
Defined.

(** ** The datetime sampler, whatever the schema *)

Lemma date_range_length (pd : Pandas) (a b : json) (start stop : option Z)
  (n : nat) (l : list Z) :
  date_range pd a b start stop n = Ok l -> List.length l = n.
Proof.
  unfold date_range. intro H.
  assert (O : forall f,
             date_range_open pd a b n = Ok f ->
             Ok (map f (seq 0 n)) = Ok l -> List.length l = n).
  { intros f _ E. injection E as <-. rewrite length_map, length_seq.
    reflexivity. }
  destruct start as [t|], stop as [u|];
    try (destruct (date_range_open pd a b n) as [f|e] eqn:E;
         [exact (O f eq_refl H) | discriminate]).
  injection H as <-. rewrite length_map, length_seq. reflexivity.
Qed.

Lemma spread_dates_ok (pd : Pandas) (c : json) (n : nat) (l : list string) :
  Synthesizer.spread_dates pd c n = Ok l ->
  exists ts, List.length ts = n /\ l = map strftime_ymd ts.
Proof.
  unfold Synthesizer.spread_dates. intro H.
  destruct (subscript c "min") as [a|e]; simpl in H; [|discriminate].
  destruct (to_datetime pd a) as [start|e]; simpl in H; [|discriminate].
  destruct (subscript c "max") as [b|e]; simpl in H; [|discriminate].
  destruct (to_datetime pd b) as [stop|e]; simpl in H; [|discriminate].
  destruct (date_range pd a b start stop n) as [ts|e] eqn:E; simpl in H;
    [|discriminate].
  injection H as <-. exists ts. split; [|reflexivity].
  apply (date_range_length pd a b start stop). exact E.
Qed.

(** X3. Whatever the column schema and however its bounds parse,
    [_sample_datetime] returns exactly [n] entries and every entry has the
    shape [YYYY-MM-DD]. *)
Theorem sample_datetime_total_shape (pd : Pandas) (c : json) (n : nat) :
  List.length (Synthesizer._sample_datetime pd c n) = n
  /\ Forall (fun s => is_ymd s = true) (Synthesizer._sample_datetime pd c n).
Proof.
  unfold Synthesizer._sample_datetime.
  destruct (Synthesizer.spread_dates pd c n) as [l|e] eqn:E.
  - destruct (spread_dates_ok pd c n l E) as (ts & L & ->). split.
    + rewrite length_map. exact L.
    + apply Forall_forall. intros s Hs. apply in_map_iff in Hs.
      destruct Hs as (t & <- & _). apply is_ymd_strftime.
  - split; [apply repeat_length|].
    apply Forall_forall. intros s Hs. apply repeat_spec in Hs. subst s.
    reflexivity.
Qed.

(** X4. A datetime column of one row holds the day of [min], whatever [max]
    is, and a column of no row is empty: when [min] and [max] parse as
    instants, [max] is only reached from two rows on. *)
Theorem sample_datetime_one_row (pd : Pandas) (c : json) (a b : json)
  (start stop : Z)
  (Ha : subscript c "min" = Ok a) (Hs : to_datetime pd a = Ok (Some start))
  (Hb : subscript c "max" = Ok b) (He : to_datetime pd b = Ok (Some stop)) :
  Synthesizer._sample_datetime pd c 1 = [strftime_ymd start]
  /\ Synthesizer._sample_datetime pd c 0 = [].
Proof.
  unfold Synthesizer._sample_datetime.
  rewrite !(spread_dates_parsed pd c _ a b start stop Ha Hs Hb He).
  cbn [seq map]. unfold linspace. cbn [Nat.eqb]. rewrite Z.add_0_r.
  split; reflexivity.
Qed.

Lemma sample_datetime_one_row_witness :
  Synthesizer._sample_datetime Iso.pandas
    (JObj [("min", JStr "2021-03-01"); ("max", JStr "2021-03-07")]) 1
  = ["2021-03-01"].
Proof.
  apply (proj1 (sample_datetime_one_row Iso.pandas
                  (JObj [("min", JStr "2021-03-01"); ("max", JStr "2021-03-07")])
                  (JStr "2021-03-01") (JStr "2021-03-07")
                  1614556800000000000%Z 1615075200000000000%Z
                  eq_refl eq_refl eq_refl eq_refl)).
Defined.

(** ** The numeric sampler off its intended inputs *)





(** X6. The numeric sampler on a descriptor that lacks a statistic or holds
    one that is no number: a dict without [min], [max] or [mean] raises
    [KeyError]; with the three present, a [min] or [max] that is neither a
    number nor a bool (a string, null, a list, a dict) raises [TypeError];
    in both cases no draw is consumed. *)
Theorem sample_numeric_errors (pd : Pandas) (kv : list (string * json))
  (n : nat) (g : Rng) :
  (Dict.get "min" kv = None \/ Dict.get "max" kv = None
   \/ Dict.get "mean" kv = None ->
   Synthesizer._sample_numeric pd (JObj kv) n g = (Raise KeyError, g))
  /\ (forall low high mu : json,
         Dict.get "min" kv = Some low -> Dict.get "max" kv = Some high ->
         Dict.get "mean" kv = Some mu ->
         as_float low = Raise TypeError \/ as_float high = Raise TypeError ->
         Synthesizer._sample_numeric pd (JObj kv) n g = (Raise TypeError, g)).
Proof.
  split.
  - intro H. unfold Synthesizer._sample_numeric, rbind, lift, subscript, Dict.item.
    destruct (Dict.get "min" kv); [|reflexivity].
    destruct (Dict.get "max" kv); [|reflexivity].
    destruct (Dict.get "mean" kv); [|reflexivity].
    destruct H as [H | [H | H]]; discriminate.
  - intros low high mu Hl Hh Hm H.
    unfold Synthesizer._sample_numeric, rbind, lift, subscript, Dict.item.
    rewrite Hl, Hh, Hm.
    destruct H as [H | H].
    + rewrite H. destruct (as_float high) as [x|e] eqn:E; [reflexivity|].
      destruct high; simpl in E; try discriminate; injection E as <-; reflexivity.
    + rewrite H. reflexivity.
Qed.

(** A descriptor without a mean, and one whose minimum is a string. *)
Lemma sample_numeric_errors_witness :
  Synthesizer._sample_numeric Iso.pandas
    (JObj [("name", JStr "x"); ("type", JStr "numeric");
           ("min", JNum 0); ("max", JNum 1)]) 3 Iso.ramp
  = (Raise KeyError, Iso.ramp)
  /\ Synthesizer._sample_numeric Iso.pandas
       (JObj [("min", JStr "0"); ("max", JNum 1); ("mean", JNum 0)]) 3 Iso.ramp
     = (Raise TypeError, Iso.ramp).
Proof.
  split.
  - apply (proj1 (sample_numeric_errors Iso.pandas
                    [("name", JStr "x"); ("type", JStr "numeric");
                     ("min", JNum 0); ("max", JNum 1)] 3 Iso.ramp)).
    right. right. reflexivity.
  - apply (proj2 (sample_numeric_errors Iso.pandas
                    [("min", JStr "0"); ("max", JNum 1); ("mean", JNum 0)]
                    3 Iso.ramp)
             (JStr "0") (JNum 1) (JNum 0) eq_refl eq_refl eq_refl).
    left. reflexivity.
Defined.

(** ** Reading [sample_values] *)

Lemma map_exc_first_raise {A B : Type} (f : A -> exc B) (x : A) (rest : list A)
  (e : exn) :
  f x = Raise e -> map_exc f (x :: rest) = Raise e.
Proof. intro H. simpl. rewrite H. reflexivity. Qed.

(** X7. How [_as_list] reads a value.  A falsy value gives the empty list;
    a list of strings is returned as it is; a non-empty string gives its
    characters; a list whose first entry is an empty list raises
    [IndexError]; a list that starts with a list and then holds a number
    raises [TypeError]; a non-empty dict raises [KeyError]; a number other
    than zero, [nan] and [true] raise [TypeError]. *)
Theorem as_list_edge_cases (pd : Pandas) :
  (forall v, Synthesizer.truthy v = false -> Synthesizer._as_list pd v = Ok [])
  /\ (forall l : list string,
         Synthesizer._as_list pd (JArr (map JStr l)) = Ok l)
  /\ (forall (c : ascii) (s : string),
         Synthesizer._as_list pd (JStr (String c s))
         = Ok (map (fun a => String a EmptyString)
                   (list_ascii_of_string (String c s))))
  /\ (forall rest : list json,
         Synthesizer._as_list pd (JArr (JArr [] :: rest)) = Raise IndexError)
  /\ (forall (x : json) (first : list json) (q : Q) (rest : list json),
         Synthesizer._as_list pd (JArr (JArr (x :: first) :: JNum q :: rest))
         = Raise TypeError)
  /\ (forall (p : string * json) (kv : list (string * json)),
         Synthesizer._as_list pd (JObj (p :: kv)) = Raise KeyError)
  /\ (forall q : Q,
         Qeq_bool q 0 = false ->
         Synthesizer._as_list pd (JNum q) = Raise TypeError)
  /\ Synthesizer._as_list pd JNaN = Raise TypeError
  /\ Synthesizer._as_list pd (JBool true) = Raise TypeError.
Proof.
  split; [apply as_list_falsy|].
  split.
  { intro l. destruct l as [|s l]; [reflexivity|].
    unfold Synthesizer._as_list.
    cbn [map Synthesizer.truthy negb iterate bind].
    rewrite (map_exc_total _ (fun x => Synthesizer.py_str pd x)).
    - f_equal. change (JStr s :: map JStr l) with (map JStr (s :: l)).
      rewrite map_map.
      rewrite (map_ext _ (fun x => x)) by reflexivity. apply map_id.
    - intros x _. reflexivity. }
  split.
  { intros c s. unfold Synthesizer._as_list.
    cbn [Synthesizer.truthy String.eqb negb iterate bind].
    unfold chars.
    rewrite (map_exc_total _ (fun x => Synthesizer.py_str pd x)).
    - rewrite map_map. reflexivity.
    - intros x _. reflexivity. }
  split; [intro rest; reflexivity|].
  split; [intros x first q rest; reflexivity|].
  split.
  { intros p kv. unfold Synthesizer._as_list.
    cbn [Synthesizer.truthy negb iterate bind map].
    apply map_exc_first_raise. reflexivity. }
  split.
  { intros q Hq. unfold Synthesizer._as_list.
    cbn [Synthesizer.truthy]. rewrite Hq. reflexivity. }
  split; reflexivity.
Qed.

Lemma as_list_edge_cases_witness :
  Synthesizer._as_list Iso.pandas (JNum 0) = Ok []
  /\ Synthesizer._as_list Iso.pandas (JNum 3) = Raise TypeError.
Proof.
  split.
  - apply (proj1 (as_list_edge_cases Iso.pandas) (JNum 0)). reflexivity.
  - apply (proj1 (proj2 (proj2 (proj2 (proj2 (proj2 (proj2
             (as_list_edge_cases Iso.pandas))))))) 3%Q).
    reflexivity.
Defined.

(** ** The categorical sampler without categories *)

Lemma py_range_nonpositive (z : Z) :
  (z <= 0)%Z -> Synthesizer.py_range (JNum (inject_Z z)) = Ok [].
Proof.
  intro H. unfold Synthesizer.py_range. rewrite Qfloor_Z.
  rewrite (proj2 (Qeq_bool_iff _ _) (Qeq_refl _)).
  replace (Z.to_nat z) with 0%nat by lia. reflexivity.
Qed.

Lemma random_choices_empty {A : Type} (n : nat) (g : Rng) :
  random_choices (@nil A) (S n) g = (Raise IndexError, skip_random 1 g).
Proof.
  unfold random_choices. cbn [seq map_exc].
  destruct (choice_index g (List.length (@nil A)) 0); reflexivity.
Qed.

(** X8. With no usable [sample_values] and a [unique] that is zero or
    negative there is no category to draw from: the categorical sampler
    returns the empty column when no row is asked for, and raises
    [IndexError] at its first draw when at least one row is. *)
Theorem sample_categorical_no_category (pd : Pandas) (c : json) (g : Rng)
  (sv : json) (z : Z)
  (Hget : Synthesizer.get c "sample_values" JNull = Ok sv)
  (Hsv : Synthesizer.truthy sv = false)
  (Hu : Synthesizer.get c "unique" (JNum 5) = Ok (JNum (inject_Z z)))
  (Hz : (z <= 0)%Z) :
  Synthesizer._sample_categorical pd c 0 g = (Ok [], skip_random 0 g)
  /\ forall n,
      Synthesizer._sample_categorical pd c (S n) g
      = (Raise IndexError, skip_random 1 g).
Proof.
  split; [|intro n];
    unfold Synthesizer._sample_categorical, rbind, lift, ret;
    rewrite Hget, (as_list_falsy pd sv Hsv), Hu, (py_range_nonpositive z Hz);
    cbn [map].
  - reflexivity.
  - apply random_choices_empty.
Qed.

Lemma sample_categorical_no_category_witness :
  Synthesizer._sample_categorical Iso.pandas
    (JObj [("unique", JNum 0)]) 2 Iso.ramp
  = (Raise IndexError, skip_random 1 Iso.ramp).
Proof.
  apply (proj2 (sample_categorical_no_category Iso.pandas
                  (JObj [("unique", JNum 0)]) Iso.ramp JNull 0%Z
                  eq_refl eq_refl eq_refl
                  (fun E => match E with eq_refl => I end))).
Defined.

(** ** The table that [generate_rows] builds *)

Lemma np_random_normal_length (loc scale : pyfloat) (n : nat) (g g' : Rng)
  (xs : list pyfloat) :
  np_random_normal loc scale n g = (Ok xs, g') -> List.length xs = n.
Proof.
  unfold np_random_normal. destruct scale as [s|].
  - destruct (Qltb s 0); intro H; [discriminate|].
    injection H as <- _. rewrite length_map, length_seq. reflexivity.
  - intro H. injection H as <- _. apply repeat_length.
Qed.

Lemma random_choices_length {A : Type} (population : list A) (n : nat)
  (g g' : Rng) (l : list A) :
  random_choices population n g = (Ok l, g') -> List.length l = n.
Proof.
  unfold random_choices.
  destruct (map_exc _ (seq 0 n)) as [l0|e] eqn:E; intro H; [|discriminate].
  injection H as <- _. apply map_exc_length in E.
  rewrite length_seq in E. exact E.
Qed.

Lemma sample_numeric_length (pd : Pandas) (c : json) (n : nat) (g g' : Rng)
  (xs : list pyfloat) :
  Synthesizer._sample_numeric pd c n g = (Ok xs, g') -> List.length xs = n.
Proof.
  unfold Synthesizer._sample_numeric, rbind, lift, ret. intro H.
  destruct (subscript c "min") as [low|e]; [|discriminate].
  destruct (subscript c "max") as [high|e]; [|discriminate].
  destruct (subscript c "mean") as [mu|e]; [|discriminate].
  destruct (as_float high) as [hi|e]; [|discriminate].
  destruct (as_float low) as [lo|e]; [|discriminate].
  destruct (Synthesizer.np_double pd mu) as [m|e]; [|discriminate].
  destruct (np_random_normal m _ n g) as [[ys|e] g1] eqn:E; [|discriminate].
  injection H as <- _. rewrite length_map.
  apply (np_random_normal_length _ _ _ _ _ _ E).
Qed.

Lemma sample_categorical_length (pd : Pandas) (c : json) (n : nat) (g g' : Rng)
  (l : list string) :
  Synthesizer._sample_categorical pd c n g = (Ok l, g') -> List.length l = n.
Proof.
  unfold Synthesizer._sample_categorical, rbind, lift, ret. intro H.
  destruct (Synthesizer.get c "sample_values" JNull) as [sv|e]; [|discriminate].
  destruct (Synthesizer._as_list pd sv) as [[|x cats]|e]; [| |discriminate].
  - destruct (Synthesizer.get c "unique" (JNum 5)) as [u|e]; [|discriminate].
    destruct (Synthesizer.py_range u) as [r|e]; [|discriminate].
    apply (random_choices_length _ _ _ _ _ H).
  - apply (random_choices_length _ _ _ _ _ H).
Qed.

Lemma sample_text_length (pd : Pandas) (c : json) (n : nat) (g g' : Rng)
  (l : list string) :
  Synthesizer._sample_text pd c n g = (Ok l, g') -> List.length l = n.
Proof.
  unfold Synthesizer._sample_text, rbind, lift. intro H.
  destruct (Synthesizer.get c "sample_values" JNull) as [sv|e]; [|discriminate].
  destruct (Synthesizer._as_list pd sv) as [cats|e]; [|discriminate].
  apply (random_choices_length _ _ _ _ _ H).
Qed.

Lemma sample_datetime_total_shape_aux (pd : Pandas) (c : json) (n : nat) :
  List.length (Synthesizer._sample_datetime pd c n) = n
  /\ Forall (fun s => is_ymd s = true) (Synthesizer._sample_datetime pd c n).
Proof.
  unfold Synthesizer._sample_datetime.
  destruct (Synthesizer.spread_dates pd c n) as [l|e] eqn:E.
  - destruct (spread_dates_ok pd c n l E) as (ts & L & ->). split.
    + rewrite length_map. exact L.
    + apply Forall_forall. intros s Hs. apply in_map_iff in Hs.
      destruct Hs as (t & <- & _). apply is_ymd_strftime.
  - split; [apply repeat_length|].
    apply Forall_forall. intros s Hs. apply repeat_spec in Hs. subst s.
    reflexivity.
Qed.

Lemma sample_column_length (pd : Pandas) (kind col : json) (rows : nat)
  (g g' : Rng) (v : Synthesizer.values) :
  Synthesizer.sample_column pd kind col rows g = (Ok v, g') ->
  column_length v = rows.
Proof.
  unfold Synthesizer.sample_column, rbind, ret.
  destruct (Synthesizer.type_is kind "numeric").
  - destruct (Synthesizer._sample_numeric pd col rows g) as [[l|e] g1] eqn:E;
      intro H; [|discriminate].
    injection H as <- _. apply (sample_numeric_length _ _ _ _ _ _ E).
  - destruct (Synthesizer.type_is kind "datetime").
    + intro H. injection H as <- _.
      apply (proj1 (sample_datetime_total_shape_aux pd col rows)).
    + destruct (Synthesizer.type_is kind "text").
      * destruct (Synthesizer._sample_text pd col rows g) as [[l|e] g1] eqn:E;
          intro H; [|discriminate].
        injection H as <- _. apply (sample_text_length _ _ _ _ _ _ E).
      * destruct (Synthesizer._sample_categorical pd col rows g)
          as [[l|e] g1] eqn:E; intro H; [|discriminate].
        injection H as <- _. apply (sample_categorical_length _ _ _ _ _ _ E).
Qed.

Lemma distinct_from_snoc (k : json) (l seen : list json) :
  distinct_from seen (l ++ [k])
  = distinct_from seen l
    && forallb (fun k' => negb (Synthesizer.key_eqb k' k)) (seen ++ l).
Proof.
  revert seen. induction l as [|x l IH]; intro seen; simpl.
  - rewrite app_nil_r, andb_true_r. reflexivity.
  - rewrite IH. rewrite <- app_assoc. simpl.
    rewrite andb_assoc. reflexivity.
Qed.

Lemma setitem_keys (k : json) (v : Synthesizer.values)
  (cols : list (json * Synthesizer.values)) :
  map fst (Synthesizer.setitem k v cols) = map fst cols
  \/ (forallb (fun k' => negb (Synthesizer.key_eqb k' k)) (map fst cols) = true
      /\ map fst (Synthesizer.setitem k v cols) = map fst cols ++ [k]).
Proof.
  induction cols as [|[k' v'] cols IH]; simpl.
  - right. split; reflexivity.
  - destruct (Synthesizer.key_eqb k' k) eqn:E; simpl.
    + left. reflexivity.
    + destruct IH as [IH | [F IH]].
      * left. rewrite IH. reflexivity.
      * right. split; [exact F | rewrite IH; reflexivity].
Qed.

Lemma setitem_lengths (rows : nat) (k : json) (v : Synthesizer.values)
  (cols : list (json * Synthesizer.values)) :
  column_length v = rows ->
  Forall (fun p => column_length (snd p) = rows) cols ->
  Forall (fun p => column_length (snd p) = rows) (Synthesizer.setitem k v cols).
Proof.
  intros Hv Hc. induction Hc as [|[k' v'] cols Hp Hc IH]; simpl.
  - constructor; [exact Hv | constructor].
  - destruct (Synthesizer.key_eqb k' k).
    + constructor; [exact Hv | exact Hc].
    + constructor; [exact Hp | exact IH].
Qed.

Lemma add_columns_invariant (pd : Pandas) (rows : nat) (l : list json) :
  forall (acc table : list (json * Synthesizer.values)) (g g' : Rng),
    table_invariant rows acc ->
    Synthesizer.add_columns pd rows l acc g = (Ok table, g') ->
    table_invariant rows table
    /\ (List.length table <= List.length acc + List.length l)%nat.
Proof.
  induction l as [|col l IH]; intros acc table g g' Hacc H.
  - injection H as <- _. split; [exact Hacc | lia].
  - cbn [Synthesizer.add_columns] in H. unfold rbind at 1 in H.
    destruct (Synthesizer.add_column pd rows col acc g) as [[acc'|e] g1] eqn:E;
      [|discriminate].
    assert (I : table_invariant rows acc'
                /\ (List.length acc' <= S (List.length acc))%nat).
    { unfold Synthesizer.add_column, rbind, lift, ret, throw in E.
      destruct (subscript col "type") as [kind|e]; [|discriminate].
      destruct (Synthesizer.sample_column pd kind col rows g) as [[v|e] g2] eqn:Ev;
        [|discriminate].
      destruct (subscript col "name") as [nm|e]; [|discriminate].
      destruct (Synthesizer.hashable nm); [|discriminate].
      injection E as <- _.
      destruct Hacc as [Hl Hd]. split; [split|].
      - apply setitem_lengths; [|exact Hl].
        apply (sample_column_length _ _ _ _ _ _ _ Ev).
      - destruct (setitem_keys nm v acc) as [K | [F K]]; rewrite K.
        + exact Hd.
        + unfold distinct_keys in *. rewrite distinct_from_snoc, Hd. exact F.
      - rewrite <- (length_map fst (Synthesizer.setitem nm v acc)).
        destruct (setitem_keys nm v acc) as [K | [F K]]; rewrite K.
        + rewrite length_map. lia.
        + rewrite length_app, length_map. simpl. lia. }
    destruct I as [I1 I2].
    destruct (IH acc' table g1 g' I1 H) as [J1 J2].
    split; [exact J1 | simpl; lia].
Qed.

(** X9. Whenever [generate_rows] returns a table, every column of it has
    exactly [rows] entries, no two column labels are equal as dict keys, and
    the table has at most as many columns as the schema has descriptors. *)
Theorem generate_rows_table_invariant (pd : Pandas)
  (schema : list (string * json)) (rows : nat) (g g' : Rng)
  (table : list (json * Synthesizer.values))
  (H : Synthesizer.generate_rows pd schema rows g = (Ok table, g')) :
  Forall (fun p => column_length (snd p) = rows) table
  /\ distinct_keys (map fst table) = true
  /\ exists cols l,
      Dict.get "columns" schema = Some cols /\ iterate cols = Ok l
      /\ (List.length table <= List.length l)%nat.
Proof.
  unfold Synthesizer.generate_rows, rbind, lift, Dict.item in H.
  destruct (Dict.get "columns" schema) as [cols|] eqn:Ec; [|discriminate].
  destruct (iterate cols) as [l|e] eqn:El; [|discriminate].
  assert (I0 : table_invariant rows []) by (split; [constructor | reflexivity]).
  destruct (add_columns_invariant pd rows l [] table g g' I0 H) as [[A B] C].
  split; [exact A|]. split; [exact B|].
  exists cols, l. split; [reflexivity|]. split; [exact El | exact C].
Qed.

(** Two descriptors named alike and a third one, four rows. *)
Lemma generate_rows_table_invariant_witness :
  exists table,
    fst (Synthesizer.generate_rows Iso.pandas
           [("columns", JArr [JObj [("name", JStr "a"); ("type", JStr "text")];
                              JObj [("name", JStr "b"); ("type", JStr "datetime")];
                              JObj [("name", JStr "a"); ("type", JStr "int")]])]
           4 Iso.ramp) = Ok table
    /\ Forall (fun p => column_length (snd p) = 4%nat) table
    /\ distinct_keys (map fst table) = true.
Proof.
  destruct (Synthesizer.generate_rows Iso.pandas
              [("columns", JArr [JObj [("name", JStr "a"); ("type", JStr "text")];
                                 JObj [("name", JStr "b"); ("type", JStr "datetime")];
                                 JObj [("name", JStr "a"); ("type", JStr "int")]])]
              4 Iso.ramp) as [[table|e] g'] eqn:E.
  - exists table. split; [reflexivity|].
    destruct (generate_rows_table_invariant _ _ _ _ _ _ E) as (A & B & _).
    split; assumption.
  - vm_compute in E. discriminate.
Defined.

Lemma add_columns_datetime (pd : Pandas) (rows : nat) (l : list json) :
  Forall datetime_column l ->
  forall acc : list (json * Synthesizer.values),
  exists table,
    forall g, Synthesizer.add_columns pd rows l acc g = (Ok table, g).
Proof.
  induction 1 as [|col l (kv & nm & -> & Ht & Hn & Hh) Hl IH]; intro acc.
  - exists acc. intro g. reflexivity.
  - destruct (IH (Synthesizer.setitem nm
                    (Synthesizer.Strings
                       (Synthesizer._sample_datetime pd (JObj kv) rows)) acc))
      as (table & R).
    exists table. intro g.
    cbn [Synthesizer.add_columns]. unfold rbind at 1.
    unfold Synthesizer.add_column, rbind, lift, ret, subscript, Dict.item.
    rewrite Ht. cbn [Synthesizer.sample_column Synthesizer.type_is String.eqb
                      Ascii.eqb Bool.eqb andb].
    unfold Synthesizer.sample_column. cbn. rewrite Hn, Hh. apply R.
Qed.

(** X10. A schema all of whose columns are of type "datetime" is
    synthesized without any random draw: [generate_rows] returns the same
    table from every state of the generators and leaves that state as it
    found it. *)
Theorem generate_rows_datetime_only (pd : Pandas)
  (schema : list (string * json)) (cols : list json) (rows : nat)
  (Hc : Dict.get "columns" schema = Some (JArr cols))
  (Hd : Forall datetime_column cols) :
  exists table,
    forall g, Synthesizer.generate_rows pd schema rows g = (Ok table, g).
Proof.
  destruct (add_columns_datetime pd rows cols Hd []) as (table & R).
  exists table. intro g.
  unfold Synthesizer.generate_rows, rbind, lift, Dict.item.
  rewrite Hc. cbn [iterate]. apply R.
Qed.

Lemma generate_rows_datetime_only_witness :
  exists table,
    forall g,
      Synthesizer.generate_rows Iso.pandas
        [("columns",
          JArr [JObj [("name", JStr "day"); ("type", JStr "datetime");
                      ("min", JStr "2021-01-01"); ("max", JStr "2021-01-03")]])]
        3 g = (Ok table, g).
Proof.
  apply (generate_rows_datetime_only Iso.pandas
           [("columns",
             JArr [JObj [("name", JStr "day"); ("type", JStr "datetime");
                         ("min", JStr "2021-01-01"); ("max", JStr "2021-01-03")]])]
           [JObj [("name", JStr "day"); ("type", JStr "datetime");
                  ("min", JStr "2021-01-01"); ("max", JStr "2021-01-03")]]
           3 eq_refl).
  apply Forall_cons; [|apply Forall_nil].
  eexists. eexists. split; [reflexivity|]. split; [reflexivity|].
  split; reflexivity.
Defined.

(** ** The validator on any document *)

Lemma for_each_check_column_first_other (l1 l2 : list json) (x : json) :
  Forall named_and_typed l1 -> is_dict x = false ->
  for_each Validators.check_column (l1 ++ x :: l2) = Raise AttributeError.
Proof.
  intros H Hx. induction H as [|col l1 (kv & nm & ty & -> & En & Et) Hl IH]; simpl.
  - destruct x; try reflexivity. discriminate.
  - unfold Validators.check_column at 1.
    unfold Validators.has_name_and_type, Dict.mem.
    rewrite En, Et. simpl. exact IH.
Qed.

Lemma iterate_raises (v : json) (e : exn) : iterate v = Raise e -> e = TypeError.
Proof. destruct v; simpl; intro H; try discriminate; injection H as <-; reflexivity. Qed.

(** X11. [validate_schema] on any document, of the data model's shape or
    not.  It accepts exactly the documents whose [columns] value can be
    iterated and yields only dicts that have a [name] and a [type]; so it
    also accepts a [columns] that is an empty dict or an empty string.  A
    [columns] that cannot be iterated (a number, a bool, null) raises
    [TypeError], and an entry that is no dict, met before any entry that
    lacks a key, raises [AttributeError]: neither is the malformed-schema
    error. *)
Theorem validate_schema_any_document (s : list (string * json)) :
  (snd (Validators.validate_schema s) = Ok tt
   <-> exists v l,
        Dict.get "columns" s = Some v /\ iterate v = Ok l
        /\ Forall named_and_typed l)
  /\ (Dict.get "columns" s = Some (JObj []) \/ Dict.get "columns" s = Some (JStr "") ->
      snd (Validators.validate_schema s) = Ok tt)
  /\ (forall v e,
         Dict.get "columns" s = Some v -> iterate v = Raise e ->
         snd (Validators.validate_schema s) = Raise TypeError)
  /\ (forall l1 x l2,
         Dict.get "columns" s = Some (JArr (l1 ++ x :: l2)) ->
         Forall named_and_typed l1 -> is_dict x = false ->
         snd (Validators.validate_schema s) = Raise AttributeError).
Proof.
  unfold Validators.validate_schema, Dict.mem, Dict.item. cbn [snd].
  split; [|split; [|split]].
  - split.
    + intro H. destruct (Dict.get "columns" s) as [v|]; [|discriminate].
      cbn [negb bind] in H.
      destruct (iterate v) as [l|e] eqn:E; [|discriminate].
      exists v, l. split; [reflexivity|]. split; [exact E|].
      apply for_each_check_column_ok. exact H.
    + intros (v & l & Hv & Hl & F). rewrite Hv. cbn [negb bind].
      rewrite Hl. apply for_each_named_and_typed. exact F.
  - intros [H | H]; rewrite H; reflexivity.
  - intros v e Hv He. rewrite Hv. cbn [negb bind]. rewrite He.
    rewrite (iterate_raises v e He). reflexivity.
  - intros l1 x l2 Hv F Hx. rewrite Hv. cbn [negb bind iterate].
    apply for_each_check_column_first_other; assumption.
Qed.

(** A document whose [columns] is an empty dict, and one whose second
    column is a string. *)
Lemma validate_schema_any_document_witness :
  snd (Validators.validate_schema [("columns", JObj [])]) = Ok tt
  /\ snd (Validators.validate_schema
            [("columns", JArr [JObj [("name", JStr "a"); ("type", JStr "x")];
                               JStr "b"])]) = Raise AttributeError.
Proof.
  split.
  - apply (proj1 (proj2 (validate_schema_any_document [("columns", JObj [])]))).
    left. reflexivity.
  - apply (proj2 (proj2 (proj2 (validate_schema_any_document
             [("columns", JArr [JObj [("name", JStr "a"); ("type", JStr "x")];
                                JStr "b"])])))
             [JObj [("name", JStr "a"); ("type", JStr "x")]] (JStr "b") []
             eq_refl).
    + apply Forall_cons; [|apply Forall_nil].
      eexists. eexists. eexists. split; [reflexivity|]. split; reflexivity.
    + reflexivity.
Defined.

(** ** Column types and descriptors *)

Lemma nunique_positive (c : cell) (l : list cell) :
  (1 <= Profiler.nunique (c :: l))%nat.
Proof. unfold Profiler.nunique. simpl. lia. Qed.

Lemma infer_col_type_facts (pd : Pandas) (s : column) :
  (Profiler.dropna s = [] /\ Profiler._infer_col_type pd s = "text")
  \/ (Profiler.dropna s <> []
      /\ (Profiler._infer_col_type pd s = "numeric"
          \/ Profiler._infer_col_type pd s = "datetime"
          \/ (Profiler._infer_col_type pd s = "categorical"
              /\ (10 * Profiler.nunique (Profiler.dropna s)
                  < 4 * List.length (Profiler.dropna s))%nat)
          \/ Profiler._infer_col_type pd s = "text")).
Proof.
  unfold Profiler._infer_col_type.
  destruct (Profiler.dropna s) as [|c rest] eqn:E.
  - left. split; reflexivity.
  - right. split; [discriminate|].
    destruct (forallb _ _); [left; reflexivity|].
    destruct (Profiler.fgt _ _); [right; left; reflexivity|].
    rewrite unique_ratio_below by (simpl; lia).
    destruct (ratio_below_0_4 _ _) eqn:R.
    + right. right. left. split; [reflexivity|].
      unfold ratio_below_0_4 in R. apply Nat.ltb_lt in R. exact R.
    + right. right. right. reflexivity.
Qed.

(** X12. [_infer_col_type] returns one of "numeric", "datetime",
    "categorical" and "text"; a column without a non-missing value is text;
    and a column is categorical only if it has at least three non-missing
    values, its distinct values being fewer than 0.4 times as many. *)
Theorem infer_col_type_range (pd : Pandas) (s : column) :
  In (Profiler._infer_col_type pd s) ["numeric"; "datetime"; "categorical"; "text"]
  /\ (Profiler.dropna s = [] -> Profiler._infer_col_type pd s = "text")
  /\ (Profiler._infer_col_type pd s = "categorical" ->
      (3 <= List.length (Profiler.dropna s))%nat
      /\ (10 * Profiler.nunique (Profiler.dropna s)
          < 4 * List.length (Profiler.dropna s))%nat).
Proof.
  destruct (infer_col_type_facts pd s) as [[E T] | [N H]].
  - split; [rewrite T; simpl; auto|]. split; [intros _; exact T|].
    rewrite T. discriminate.
  - split; [|split].
    + destruct H as [H | [H | [[H _] | H]]]; rewrite H; simpl; auto.
    + intro E. contradiction.
    + intro C.
      destruct H as [H | [H | [[_ R] | H]]];
        try (rewrite C in H; discriminate).
      split; [|exact R].
      destruct (Profiler.dropna s) as [|c rest]; [contradiction|].
      pose proof (nunique_positive c rest). lia.
Qed.

Lemma infer_col_type_range_witness :
  (3 <= List.length
          (Profiler.dropna
             [Some (CStr "red"); Some (CStr "red"); Some (CStr "red"); None]))%nat.
Proof.
  apply (proj2 (proj2 (infer_col_type_range Iso.pandas
                         [Some (CStr "red"); Some (CStr "red");
                          Some (CStr "red"); None]))).
  reflexivity.
Defined.

(** The descriptor of a column that the table holds once, for each of the
    four types. *)
Lemma profile_column_descriptor (pd : Pandas) (df : Profiler.frame)
  (col : string) (s : column) :
  Profiler.getitem df col = Ok s ->
  let base := [("name", JStr col);
               ("type", JStr (Profiler._infer_col_type pd s));
               ("nullable", JBool (existsb (fun x => negb (Profiler.notna x)) s))] in
  (Profiler._infer_col_type pd s = "numeric"
   /\ Profiler._profile_column pd df col
      = Ok (base ++
            [("mean", Profiler.float_json (Profiler.mean (Profiler.numbers pd s)));
             ("std", Profiler.float_json (Profiler.std0 pd (Profiler.numbers pd s)));
             ("min", Profiler.float_json (Profiler.series_min (Profiler.numbers pd s)));
             ("max", Profiler.float_json (Profiler.series_max (Profiler.numbers pd s)))]))
  \/ (Profiler._infer_col_type pd s = "categorical"
      /\ Profiler._profile_column pd df col
         = Ok (base ++
               [("unique", JNum (Profiler.len_Q (Profiler.value_counts s)));
                ("sample_values", JArr (stored_sample_values s))]))
  \/ (Profiler._infer_col_type pd s = "datetime"
      /\ Profiler._profile_column pd df col
         = Ok (base ++
               [("min", JStr (Profiler.date_str
                                (Profiler.series_min_Z
                                   (Profiler.somes (to_datetime_coerce pd s)))));
                ("max", JStr (Profiler.date_str
                                (Profiler.series_max_Z
                                   (Profiler.somes (to_datetime_coerce pd s)))))]))
  \/ (Profiler._infer_col_type pd s = "text"
      /\ Profiler._profile_column pd df col = Ok base).
Proof.
  intros Hs base. unfold Profiler._profile_column. rewrite Hs. cbn [bind].
  unfold Profiler.update. fold base.
  assert (R : In (Profiler._infer_col_type pd s)
                 ["numeric"; "datetime"; "categorical"; "text"]).
  { destruct (infer_col_type_facts pd s) as [[_ T] | [_ H]].
    - rewrite T. simpl. auto.
    - destruct H as [H | [H | [[H _] | H]]]; rewrite H; simpl; auto. }
  destruct R as [T | [T | [T | [T | []]]]]; symmetry in T.
  - left. split; [exact T|]. subst base. rewrite T. reflexivity.
  - right. right. left. split; [exact T|]. subst base. rewrite T. reflexivity.
  - right. left. split; [exact T|]. subst base. rewrite T.
    cbn [String.eqb Ascii.eqb Bool.eqb andb].
    rewrite sample_values_total. reflexivity.
  - right. right. right. split; [exact T|]. subst base. rewrite T. reflexivity.
Qed.

Lemma map_exc_pointwise {A B C : Type} (f : A -> exc B) (p : B -> C)
  (q : A -> C) (xs : list A) (ys : list B) :
  (forall x y, In x xs -> f x = Ok y -> p y = q x) ->
  map_exc f xs = Ok ys -> map p ys = map q xs.
Proof.
  revert ys. induction xs as [|x xs IH]; simpl; intros ys Hf H.
  - injection H as <-. reflexivity.
  - destruct (f x) as [y|e] eqn:E; simpl in H; [|discriminate].
    destruct (map_exc f xs) as [zs|e]; simpl in H; [|discriminate].
    injection H as <-. simpl. f_equal.
    + apply (Hf x y); [left; reflexivity | exact E].
    + apply IH; [|reflexivity]. intros x' y' Hx. apply Hf. right. exact Hx.
Qed.

Lemma profile_column_name (pd : Pandas) (df : Profiler.frame) (col : string)
  (d : list (string * json)) :
  Profiler._profile_column pd df col = Ok d ->
  col_name (JObj d) = JStr col
  /\ exists s, Profiler.getitem df col = Ok s
               /\ col_type (JObj d) = JStr (Profiler._infer_col_type pd s).
Proof.
  intro H.
  destruct (Profiler.getitem df col) as [s|e] eqn:Hs.
  - destruct (profile_column_cases pd df col s Hs) as (extra & R & _).
    rewrite R in H. injection H as <-.
    split; [reflexivity|]. exists s. split; reflexivity.
  - unfold Profiler._profile_column in H. rewrite Hs in H. discriminate.
Qed.

(** X13. Whatever document [profile] returns, it lists one descriptor per
    column of the table, in the table's order, each named after its column
    and typed as [_infer_col_type] types that column, and its [num_rows] is
    the length of the table's index. *)
Theorem profile_document_layout (pd : Pandas) (df : Profiler.frame)
  (doc : list (string * json))
  (H : Profiler.profile pd df = Ok doc) :
  map col_name (descriptors doc) = map JStr (Profiler.labels df)
  /\ List.length (descriptors doc) = List.length (Profiler.data df)
  /\ Forall (fun col =>
               exists name s,
                 col_name col = JStr name
                 /\ Profiler.getitem df name = Ok s
                 /\ col_type col = JStr (Profiler._infer_col_type pd s))
            (descriptors doc)
  /\ Dict.get "num_rows" doc
     = Some (JNum (inject_Z (Z.of_nat (Profiler.index_len df)))).
Proof.
  unfold Profiler.profile in H.
  destruct (map_exc (Profiler._profile_column pd df) (Profiler.labels df))
    as [ds|e] eqn:R; simpl in H; [|discriminate].
  injection H as <-.
  change (descriptors _) with (map JObj ds).
  assert (N : map col_name (map JObj ds) = map JStr (Profiler.labels df)).
  { rewrite map_map.
    apply (map_exc_pointwise (Profiler._profile_column pd df)
             (fun d => col_name (JObj d)) JStr _ _); [|exact R].
    intros x y _ E. apply (proj1 (profile_column_name pd df x y E)). }
  split; [exact N|]. split; [|split; [|reflexivity]].
  - rewrite <- (length_map col_name), N, length_map.
    unfold Profiler.labels. apply length_map.
  - apply Forall_map.
    revert ds R N. generalize (Profiler.labels df). intros ls.
    induction ls as [|x ls IH]; simpl; intros ds R N.
    + injection R as <-. constructor.
    + destruct (Profiler._profile_column pd df x) as [y|e] eqn:E;
        simpl in R; [|discriminate].
      destruct (map_exc (Profiler._profile_column pd df) ls) as [zs|e] eqn:E';
        simpl in R; [|discriminate].
      injection R as <-. simpl in N. injection N as _ N.
      constructor; [|apply IH; [reflexivity | exact N]].
      destruct (profile_column_name pd df x y E) as (A & s & B & C).
      exists x, s. repeat split; assumption.
Qed.

Lemma profile_document_layout_witness :
  exists doc,
    Profiler.profile Iso.pandas
      (Profiler.mkFrame 2
         [("age", [Some (CNum 20); Some (CNum 30)]);
          ("day", [Some (CStr "2021-01-01"); Some (CStr "2021-01-02")])])
    = Ok doc
    /\ map col_name (descriptors doc) = [JStr "age"; JStr "day"].
Proof.
  eexists. split; [reflexivity|].
  apply (proj1 (profile_document_layout Iso.pandas
                  (Profiler.mkFrame 2
                     [("age", [Some (CNum 20); Some (CNum 30)]);
                      ("day", [Some (CStr "2021-01-01");
                               Some (CStr "2021-01-02")])])
                  _ eq_refl)).
Defined.

(** ** The statistics of a numeric column *)

(** X14. For a numeric column of which at least one value reads as a
    number, the descriptor holds numbers under [min] and [max], and
    [min <= max]: the descriptor meets the condition under which the numeric
    sampler keeps its values within bounds. *)
Theorem profile_numeric_min_le_max (pd : Pandas) (df : Profiler.frame)
  (col : string) (s : column)
  (Hs : Profiler.getitem df col = Ok s)
  (Hn : Profiler._infer_col_type pd s = "numeric")
  (Hx : Profiler.numbers pd s <> []) :
  exists d lo hi,
    Profiler._profile_column pd df col = Ok d
    /\ subscript (JObj d) "min" = Ok (JNum lo)
    /\ subscript (JObj d) "max" = Ok (JNum hi)
    /\ (lo <= hi)%Q.
Proof.
  destruct (profile_column_cases pd df col s Hs) as (extra & R & E & _).
  specialize (E Hn). subst extra.
  destruct (numeric_statistics pd (Profiler.numbers pd s) Hx)
    as (M & _ & lo & hi & Hlo & Hhi & _ & _ & B).
  rewrite M, Hlo, Hhi in R.
  eexists. exists lo, hi.
  split; [exact R|]. split; [reflexivity|]. split; [reflexivity|].
  destruct (Profiler.numbers pd s) as [|x l]; [contradiction|].
  destruct (B x (or_introl eq_refl)) as [A C].
  apply (Qle_trans _ _ _ A C).
Qed.

Lemma profile_numeric_min_le_max_witness :
  exists d lo hi,
    Profiler._profile_column Iso.pandas
      (Profiler.mkFrame 3 [("x", [Some (CNum 4); None; Some (CNum 10)])]) "x"
    = Ok d
    /\ subscript (JObj d) "min" = Ok (JNum lo)
    /\ subscript (JObj d) "max" = Ok (JNum hi)
    /\ (lo <= hi)%Q.
Proof.
  apply (profile_numeric_min_le_max Iso.pandas
           (Profiler.mkFrame 3 [("x", [Some (CNum 4); None; Some (CNum 10)])])
           "x" [Some (CNum 4); None; Some (CNum 10)] eq_refl eq_refl).
  discriminate.
Defined.

(** ** The descriptor of a categorical column *)

Lemma insert_desc_length (e : cell * nat) (l : list (cell * nat)) :
  List.length (Profiler.insert_desc e l) = S (List.length l).
Proof.
  induction l as [|e' l IH]; simpl; [reflexivity|].
  destruct (snd e' <=? snd e)%nat; simpl; [reflexivity|].
  rewrite IH. reflexivity.
Qed.

Lemma insert_desc_In (e x : cell * nat) (l : list (cell * nat)) :
  In x (Profiler.insert_desc e l) -> x = e \/ In x l.
Proof.
  induction l as [|e' l IH]; simpl.
  - intros [H | []]. left. symmetry. exact H.
  - destruct (snd e' <=? snd e)%nat; simpl.
    + intros [H | H]; [left; symmetry; exact H | right; exact H].
    + intros [H | H]; [right; left; exact H|].
      destruct (IH H) as [E | I]; [left; exact E | right; right; exact I].
Qed.

Lemma value_counts_length (s : column) :
  List.length (Profiler.value_counts s) = Profiler.nunique (Profiler.dropna s).
Proof.
  unfold Profiler.value_counts, Profiler.nunique.
  induction (Profiler.distinct (Profiler.dropna s)) as [|k ks IH]; simpl.
  - reflexivity.
  - rewrite insert_desc_length, IH. reflexivity.
Qed.

Lemma value_counts_keys (s : column) (e : cell * nat) :
  In e (Profiler.value_counts s) ->
  In (fst e) (Profiler.distinct (Profiler.dropna s)).
Proof.
  unfold Profiler.value_counts.
  induction (Profiler.distinct (Profiler.dropna s)) as [|k ks IH]; simpl.
  - contradiction.
  - intro H. apply insert_desc_In in H. destruct H as [-> | H].
    + left. reflexivity.
    + right. apply IH. exact H.
Qed.

Lemma distinct_In (k : cell) (l : list cell) :
  In k (Profiler.distinct l) -> In k l.
Proof.
  induction l as [|c l IH]; simpl; [contradiction|].
  intros [H | H]; [left; exact H|].
  right. apply IH. apply filter_In in H. apply H.
Qed.

Lemma dropna_In (k : cell) (s : column) :
  In k (Profiler.dropna s) -> In (Some k) s.
Proof.
  induction s as [|[c|] s IH]; simpl.
  - contradiction.
  - intros [-> | H]; [left; reflexivity | right; apply IH; exact H].
  - intro H. right. apply IH. exact H.
Qed.

Lemma dropna_length_le (s : column) :
  (List.length (Profiler.dropna s) <= List.length s)%nat.
Proof. induction s as [|[c|] s IH]; simpl; lia. Qed.

Lemma count_positive (k : cell) (l : list cell) :
  In k l -> (1 <= Profiler.count k l)%nat.
Proof.
  unfold Profiler.count. induction l as [|c l IH]; simpl; [contradiction|].
  intros [-> | H].
  - rewrite cell_eqb_refl. simpl. lia.
  - destruct (Profiler.cell_eqb k c); simpl; [lia | apply IH; exact H].
Qed.

Lemma count_le_length (k : cell) (l : list cell) :
  (Profiler.count k l <= List.length l)%nat.
Proof. unfold Profiler.count. apply filter_length_le. Qed.

Lemma frequency_unit (k : cell) (s : column) :
  In k (Profiler.dropna s) ->
  (0 < frequency k s (List.length s))%Q /\ (frequency k s (List.length s) <= 1)%Q.
Proof.
  intro H. unfold frequency.
  pose proof (count_positive k _ H) as A.
  pose proof (count_le_length k (Profiler.dropna s)) as B.
  pose proof (dropna_length_le s) as C.
  assert (P : (0 < inject_Z (Z.of_nat (List.length s)))%Q)
    by (unfold Qlt; simpl; lia).
  split.
  - apply Qlt_shift_div_l; [exact P|]. rewrite Qmult_0_l.
    change 0%Q with (inject_Z 0). rewrite <- Zlt_Qlt. lia.
  - apply Qle_shift_div_r; [exact P|]. rewrite Qmult_1_l.
    rewrite <- Zle_Qle. lia.
Qed.

(** X15. The descriptor of a categorical column: [unique] is the number of
    distinct non-missing values; [sample_values] has [min(20, unique)]
    entries, at least one; and each entry pairs a value that occurs in the
    column with a frequency greater than 0 and at most 1. *)
Theorem profile_categorical_descriptor (pd : Pandas) (df : Profiler.frame)
  (col : string) (s : column)
  (Hs : Profiler.getitem df col = Ok s)
  (Hc : Profiler._infer_col_type pd s = "categorical") :
  exists d,
    Profiler._profile_column pd df col = Ok d
    /\ Dict.get "unique" d
       = Some (JNum (inject_Z (Z.of_nat (Profiler.nunique (Profiler.dropna s)))))
    /\ Dict.get "sample_values" d = Some (JArr (stored_sample_values s))
    /\ List.length (stored_sample_values s)
       = Nat.min 20 (Profiler.nunique (Profiler.dropna s))
    /\ (1 <= List.length (stored_sample_values s))%nat
    /\ Forall (fun e =>
                 exists k f,
                   e = JArr [Profiler.cell_json k; JNum f]
                   /\ In (Some k) s /\ (0 < f)%Q /\ (f <= 1)%Q)
              (stored_sample_values s).
Proof.
  destruct (profile_column_cases pd df col s Hs) as (extra & R & _ & E).
  specialize (E Hc). subst extra. rewrite Hc in R.
  assert (L : List.length (stored_sample_values s)
              = Nat.min 20 (Profiler.nunique (Profiler.dropna s))).
  { unfold stored_sample_values.
    rewrite !length_map, length_firstn, value_counts_length. reflexivity. }
  eexists. split; [exact R|]. split; [|split; [reflexivity|split; [exact L|split]]].
  - cbn. unfold Profiler.len_Q. rewrite value_counts_length. reflexivity.
  - rewrite L.
    destruct (infer_col_type_facts pd s) as [[_ T] | [N _]];
      [rewrite T in Hc; discriminate|].
    destruct (Profiler.dropna s) as [|c rest]; [contradiction|].
    pose proof (nunique_positive c rest). lia.
  - unfold stored_sample_values. apply Forall_forall. intros e He.
    apply in_map_iff in He. destruct He as (k & <- & Hk).
    apply in_map_iff in Hk. destruct Hk as (p & <- & Hp).
    apply In_firstn in Hp. apply value_counts_keys in Hp.
    apply distinct_In in Hp.
    destruct (frequency_unit (fst p) s Hp) as [A B].
    exists (fst p). eexists. split; [reflexivity|].
    split; [apply dropna_In; exact Hp|]. split; assumption.
Qed.

Lemma profile_categorical_descriptor_witness :
  exists d,
    Profiler._profile_column Iso.pandas
      (Profiler.mkFrame 4
         [("colour", [Some (CStr "red"); Some (CStr "red"); Some (CStr "red");
                      None])])
      "colour" = Ok d
    /\ Dict.get "unique" d = Some (JNum 1).
Proof.
  destruct (profile_categorical_descriptor Iso.pandas
              (Profiler.mkFrame 4
                 [("colour", [Some (CStr "red"); Some (CStr "red");
                              Some (CStr "red"); None])])
              "colour"
              [Some (CStr "red"); Some (CStr "red"); Some (CStr "red"); None]
              eq_refl eq_refl) as (d & R & U & _).
  exists d. split; [exact R | exact U].
Defined.

(** ** Profiling, then synthesizing *)

Lemma as_float_float_json (x : pyfloat) : as_float (Profiler.float_json x) = Ok x.
Proof. destruct x; reflexivity. Qed.

Lemma np_double_float_json (pd : Pandas) (x : pyfloat) :
  Synthesizer.np_double pd (Profiler.float_json x) = Ok x.
Proof. destruct x; reflexivity. Qed.

Lemma np_random_normal_sigma (m hi lo : pyfloat) (n : nat) (g : Rng) :
  exists xs,
    np_random_normal m (py_max (fdiv (fsub hi lo) (Some 6%Q)) (Some eps)) n g
    = (Ok xs, skip_gauss n g).
Proof.
  destruct hi as [h|], lo as [l|];
    try (eexists; reflexivity).
  rewrite py_max_sigma. unfold np_random_normal.
  destruct (sigma_of_spec l h) as (P & _).
  assert (Z : Qltb (sigma_of l h) 0 = false) by (apply Qltb_false; lra).
  rewrite Z. eexists. reflexivity.
Qed.

Lemma stored_sample_values_pairs (s : column) :
  stored_sample_values s
  = map pair_json
        (map (fun k => (Profiler.cell_json k, JNum (frequency k s (List.length s))))
             (map fst (firstn 20 (Profiler.value_counts s)))).
Proof. unfold stored_sample_values. rewrite !map_map. reflexivity. Qed.

Lemma value_counts_nonempty (s : column) :
  Profiler.dropna s <> [] -> firstn 20 (Profiler.value_counts s) <> [].
Proof.
  intros H E.
  assert (L : List.length (firstn 20 (Profiler.value_counts s)) = 0%nat)
    by (rewrite E; reflexivity).
  rewrite length_firstn, value_counts_length in L.
  destruct (Profiler.dropna s) as [|c rest]; [contradiction|].
  pose proof (nunique_positive c rest). lia.
Qed.

Lemma profiled_descriptor_samples (pd : Pandas) (df : Profiler.frame)
  (col : string) (d : list (string * json)) (rows : nat) :
  Profiler._profile_column pd df col = Ok d -> samples pd rows (JObj d).
Proof.
  intro H.
  destruct (Profiler.getitem df col) as [s|e] eqn:Hs;
    [|unfold Profiler._profile_column in H; rewrite Hs in H; discriminate].
  destruct (profile_column_descriptor pd df col s Hs)
    as [[T R] | [[T R] | [[T R] | [T R]]]];
    rewrite R in H; injection H as <-; rewrite T; intro g;
    unfold col_type, subscript, Dict.item;
    cbn [app Dict.get String.eqb Ascii.eqb Bool.eqb];
    unfold Synthesizer.sample_column;
    cbn [Synthesizer.type_is String.eqb Ascii.eqb Bool.eqb].
  - unfold Synthesizer._sample_numeric, rbind, lift, ret, subscript, Dict.item.
    cbn [Dict.get String.eqb Ascii.eqb Bool.eqb].
    rewrite !as_float_float_json, np_double_float_json.
    destruct (np_random_normal_sigma
                (Profiler.mean (Profiler.numbers pd s))
                (Profiler.series_max (Profiler.numbers pd s))
                (Profiler.series_min (Profiler.numbers pd s)) rows g)
      as (xs & E).
    rewrite E. eexists. eexists. reflexivity.
  - unfold Synthesizer._sample_categorical, Synthesizer.get, rbind, lift, ret.
    cbn [Dict.get String.eqb Ascii.eqb Bool.eqb].
    assert (N : Profiler.dropna s <> []).
    { destruct (infer_col_type_facts pd s) as [[_ T'] | [N _]];
        [rewrite T' in T; discriminate | exact N]. }
    pose proof (value_counts_nonempty s N) as V.
    rewrite stored_sample_values_pairs.
    rewrite as_list_pairs
      by (destruct (firstn 20 (Profiler.value_counts s)); [contradiction | discriminate]).
    destruct (firstn 20 (Profiler.value_counts s)) as [|p rest] eqn:F;
      [contradiction|].
    cbn [map].
    match goal with
    | |- context [random_choices ?pop rows g] =>
        destruct (random_choices_nonempty pop rows g) as (out & Rc & _);
        [discriminate | rewrite Rc]
    end.
    eexists. eexists. reflexivity.
  - eexists. eexists. reflexivity.
  - unfold Synthesizer._sample_text, Synthesizer.get, rbind, lift, ret.
    cbn [Dict.get String.eqb Ascii.eqb Bool.eqb].
    change (Synthesizer._as_list pd JNull) with (@Ok (list string) []).
    cbv beta iota. rewrite random_choices_single.
    eexists. eexists. reflexivity.
Qed.

Lemma distinct_from_strings (l seen : list string) :
  NoDup (seen ++ l) -> distinct_from (map JStr seen) (map JStr l) = true.
Proof.
  revert seen. induction l as [|k l IH]; intros seen H; simpl; [reflexivity|].
  apply andb_true_intro. split.
  - apply forallb_forall. intros x Hx. apply in_map_iff in Hx.
    destruct Hx as (y & <- & Hy). simpl.
    destruct (String.eqb_spec y k) as [E|E]; [|reflexivity].
    subst y. apply NoDup_remove_2 in H. exfalso. apply H.
    apply in_or_app. left. exact Hy.
  - change [JStr k] with (map JStr [k]). rewrite <- map_app.
    apply IH. rewrite <- app_assoc. exact H.
Qed.

Lemma forallb_hashable_strings (l : list string) :
  forallb Synthesizer.hashable (map JStr l) = true.
Proof. induction l; simpl; [reflexivity | assumption]. Qed.

(** X16. Profiling and then synthesizing always works on a table whose
    column labels are distinct: for every row count and every state of the
    generators, [profile] returns a document, [validate_schema] accepts it,
    and [generate_rows] on it returns a table with the columns of the
    profiled table, under the same labels and in the same order, each of
    [rows] entries. *)
Theorem profile_then_generate_rows (pd : Pandas) (df : Profiler.frame)
  (rows : nat) (g : Rng)
  (Hn : NoDup (Profiler.labels df)) :
  exists doc table g',
    Profiler.profile pd df = Ok doc
    /\ snd (Validators.validate_schema doc) = Ok tt
    /\ Synthesizer.generate_rows pd doc rows g = (Ok table, g')
    /\ map fst table = map JStr (Profiler.labels df)
    /\ Forall (fun p => column_length (snd p) = rows) table.
Proof.
  destruct (map_exc_returns (Profiler._profile_column pd df) (Profiler.labels df))
    as (ds & R).
  { intros col Hc.
    destruct (getitem_unique_label df col Hn Hc) as (s & Hs).
    destruct (profile_column_cases pd df col s Hs) as (extra & E & _).
    eexists. exact E. }
  assert (N : map col_name (map JObj ds) = map JStr (Profiler.labels df)).
  { rewrite map_map.
    apply (map_exc_pointwise (Profiler._profile_column pd df)
             (fun d => col_name (JObj d)) JStr _ _); [|exact R].
    intros x y _ E. apply (proj1 (profile_column_name pd df x y E)). }
  assert (W : Forall named_and_typed (map JObj ds)).
  { apply Forall_map.
    apply (map_exc_Forall _ _ _ _ (profile_column_named_and_typed pd df) R). }
  assert (S : Forall (samples pd rows) (map JObj ds)).
  { apply Forall_map.
    apply (map_exc_Forall _ (fun d => samples pd rows (JObj d)) _ _
             (fun x y E => profiled_descriptor_samples pd df x y rows E) R). }
  destruct (add_columns_names pd rows (map JObj ds) [] g W S) as (table & g' & A & B).
  { rewrite N. apply forallb_hashable_strings. }
  { rewrite N. apply (distinct_from_strings (Profiler.labels df) []). exact Hn. }
  assert (I0 : table_invariant rows []) by (split; [constructor | reflexivity]).
  destruct (add_columns_invariant pd rows (map JObj ds) [] table g g' I0 A)
    as [[L _] _].
  eexists. exists table, g'.
  split; [unfold Profiler.profile; rewrite R; reflexivity|].
  split; [cbn; apply for_each_named_and_typed; exact W|].
  split; [exact A|]. split; [rewrite B, N; reflexivity | exact L].
Qed.

(** The table of the repository's test, a hundred rows. *)
Lemma profile_then_generate_rows_witness :
  exists doc table g',
    Profiler.profile Iso.pandas
      (Profiler.mkFrame 3
         [("age", [Some (CNum 20); Some (CNum 30); Some (CNum 40)]);
          ("color", [Some (CStr "red"); Some (CStr "blue"); Some (CStr "blue")])])
    = Ok doc
    /\ Synthesizer.generate_rows Iso.pandas doc 100 Iso.ramp = (Ok table, g')
    /\ map fst table = [JStr "age"; JStr "color"]
    /\ Forall (fun p => column_length (snd p) = 100%nat) table.
Proof.
  destruct (profile_then_generate_rows Iso.pandas
              (Profiler.mkFrame 3
                 [("age", [Some (CNum 20); Some (CNum 30); Some (CNum 40)]);
                  ("color", [Some (CStr "red"); Some (CStr "blue");
                             Some (CStr "blue")])])
              100 Iso.ramp)
    as (doc & table & g' & P & _ & G & N & L).
  - repeat constructor; simpl; intuition discriminate.
  - exists doc, table, g'. repeat split; assumption.
Defined.

(** ** The table cleaner *)

Lemma filter_keeps_all {A : Type} (p : A -> bool) (l : list A) :
  (forall x, In x l -> p x = true) -> filter p l = l.
Proof.
  induction l as [|x l IH]; simpl; intro H; [reflexivity|].
  rewrite (H x (or_introl eq_refl)). f_equal.
  apply IH. intros y Hy. apply H. right. exact Hy.
Qed.

Lemma clean_no_value (tx : Text) (df : Cleaner.table) :
  filter Cleaner.has_value (Cleaner.rows df) = [] ->
  Cleaner._clean tx df = Cleaner.mkTable [] [].
Proof.
  intro H. unfold Cleaner._clean. cbn [Cleaner.columns Cleaner.rows].
  rewrite H. reflexivity.
Qed.

Lemma clean_some_value (tx : Text) (df : Cleaner.table) :
  filter Cleaner.has_value (Cleaner.rows df) <> [] ->
  Cleaner._clean tx df
  = Cleaner.mkTable (Cleaner.columns df)
      (filter (fun r => negb (Cleaner.is_metadata tx (Cleaner.columns df) r))
              (filter Cleaner.has_value (Cleaner.rows df))).
Proof.
  intro H. unfold Cleaner._clean. cbn [Cleaner.columns Cleaner.rows].
  destruct (filter Cleaner.has_value (Cleaner.rows df)); [contradiction|].
  reflexivity.
Qed.

Lemma filter_nil_existsb {A : Type} (p : A -> bool) (l : list A) :
  filter p l = [] <-> existsb p l = false.
Proof.
  induction l as [|x l IH]; simpl; [tauto|].
  destruct (p x); simpl; [split; discriminate | exact IH].
Qed.

Lemma cleaned_rows_subset (tx : Text) (df : Cleaner.table)
  (r : list (option cell)) :
  In r (Cleaner.rows (Cleaner._clean tx df)) ->
  In r (Cleaner.rows df)
  /\ Cleaner.has_value r = true
  /\ Cleaner.is_metadata tx (Cleaner.columns df) r = false.
Proof.
  unfold Cleaner._clean. cbn [Cleaner.columns Cleaner.rows].
  destruct (filter Cleaner.has_value (Cleaner.rows df)) eqn:E;
    cbn [Cleaner.rows]; [contradiction|].
  rewrite <- E. intro H.
  apply filter_In in H. destruct H as [H M].
  apply filter_In in H. destruct H as [H V].
  split; [exact H|]. split; [exact V|].
  apply negb_true_iff. exact M.
Qed.

(** X17. Cleaning a cleaned table that has a row changes nothing.  A table
    that cleaning left with columns and without rows, all of them dropped as
    metadata, loses its columns when it is cleaned again. *)
Theorem clean_idempotent (tx : Text) (df : Cleaner.table) :
  (Cleaner.rows (Cleaner._clean tx df) <> [] ->
   Cleaner._clean tx (Cleaner._clean tx df) = Cleaner._clean tx df)
  /\ (Cleaner.rows (Cleaner._clean tx df) = [] ->
      Cleaner.columns (Cleaner._clean tx df) <> [] ->
      Cleaner._clean tx (Cleaner._clean tx df) = Cleaner.mkTable [] []
      /\ Cleaner._clean tx (Cleaner._clean tx df) <> Cleaner._clean tx df).
Proof.
  split.
  - intro Hne.
    destruct (filter Cleaner.has_value (Cleaner.rows df)) as [|r0 rs] eqn:V.
    { rewrite (clean_no_value tx df V) in Hne. contradiction Hne. reflexivity. }
    assert (N : filter Cleaner.has_value (Cleaner.rows df) <> [])
      by (rewrite V; discriminate).
    rewrite (clean_some_value tx df N) in *.
    set (kept := filter
                   (fun r => negb (Cleaner.is_metadata tx (Cleaner.columns df) r))
                   (filter Cleaner.has_value (Cleaner.rows df))) in *.
    cbn [Cleaner.rows] in Hne.
    assert (K : filter Cleaner.has_value kept = kept).
    { apply filter_keeps_all. intros r Hr. unfold kept in Hr.
      apply filter_In in Hr. destruct Hr as [Hr _].
      apply filter_In in Hr. apply Hr. }
    assert (M : filter Cleaner.has_value
                  (Cleaner.rows (Cleaner.mkTable (Cleaner.columns df) kept))
                <> [])
      by (cbn [Cleaner.rows]; rewrite K; exact Hne).
    rewrite (clean_some_value tx _ M). cbn [Cleaner.rows Cleaner.columns].
    rewrite K. f_equal. unfold kept.
    apply filter_keeps_all. intros r Hr. apply filter_In in Hr. apply Hr.
  - intros He Hc.
    assert (E : Cleaner._clean tx (Cleaner._clean tx df) = Cleaner.mkTable [] []).
    { apply clean_no_value. rewrite He. reflexivity. }
    split; [exact E|]. rewrite E. intro F. apply Hc. rewrite <- F. reflexivity.
Qed.

(** A table with a data row is cleaned once and for all; a table whose only
    row repeats the column names keeps its two columns and no row when it is
    cleaned, and has no column left when it is cleaned again. *)
Lemma clean_idempotent_witness :
  Cleaner._clean Cleaner.plain_text
    (Cleaner._clean Cleaner.plain_text
       (Cleaner.mkTable ["age"; "color"]
          [[Some (CNum 20); Some (CStr "red")]]))
  = Cleaner._clean Cleaner.plain_text
      (Cleaner.mkTable ["age"; "color"]
         [[Some (CNum 20); Some (CStr "red")]])
  /\ Cleaner._clean Cleaner.plain_text
       (Cleaner.mkTable ["age"; "color"]
          [[Some (CStr "age"); Some (CStr "color")]])
     = Cleaner.mkTable ["age"; "color"] []
  /\ Cleaner._clean Cleaner.plain_text
       (Cleaner._clean Cleaner.plain_text
          (Cleaner.mkTable ["age"; "color"]
             [[Some (CStr "age"); Some (CStr "color")]]))
     = Cleaner.mkTable [] [].
Proof.
  split; [|split; [reflexivity|]].
  - apply (proj1 (clean_idempotent Cleaner.plain_text
                    (Cleaner.mkTable ["age"; "color"]
                       [[Some (CNum 20); Some (CStr "red")]]))).
    discriminate.
  - apply (proj2 (clean_idempotent Cleaner.plain_text
                    (Cleaner.mkTable ["age"; "color"]
                       [[Some (CStr "age"); Some (CStr "color")]]))).
    + reflexivity.
    + discriminate.
Defined.

Lemma word_tokens (s : string) :
  Cleaner.is_token s = true -> s <> "" -> Cleaner.fullmatch_word s = true.
Proof.
  unfold Cleaner.is_token, Cleaner._METADATA_TOKENS. cbn [existsb].
  intros H N.
  destruct (String.eqb_spec s "ticker") as [E|_]; [rewrite E; reflexivity|].
  destruct (String.eqb_spec s "date") as [E|_]; [rewrite E; reflexivity|].
  destruct (String.eqb_spec s "nan") as [E|_]; [rewrite E; reflexivity|].
  destruct (String.eqb_spec s "") as [E|_]; [contradiction | discriminate].
Qed.

(** X18. The metadata-token test of [_clean] only matters for rows in which
    a cell reads as the empty string: a row all of whose cells read as
    tokens, none as the empty string, is already a header row for
    [_looks_like_header]. *)
Theorem token_rows_look_like_headers (tx : Text) (row : list (option cell))
  (column_names : list string)
  (Ht : forallb (Cleaner.str_test Cleaner.is_token) (Cleaner.row_str tx row)
        = true)
  (Hn : forall s, In (Some s) (Cleaner.row_str tx row) -> s <> "") :
  Cleaner._looks_like_header tx row column_names = true.
Proof.
  unfold Cleaner._looks_like_header.
  destruct (Cleaner.strings_eqb _ _); [reflexivity|].
  assert (W : forallb (Cleaner.str_test Cleaner.fullmatch_word)
                (Cleaner.row_str tx row) = true).
  { apply forallb_forall. intros t Hs.
    rewrite forallb_forall in Ht. specialize (Ht t Hs).
    destruct t as [s|]; [|discriminate].
    apply word_tokens; [exact Ht | apply Hn; exact Hs]. }
  rewrite W. reflexivity.
Qed.

Lemma token_rows_look_like_headers_witness :
  Cleaner._looks_like_header Cleaner.plain_text_na
    [Some (CStr "Ticker"); Some (CStr "NaN"); Some (CStr "DATE")]
    ["a"; "b"; "c"] = true.
Proof.
  apply (token_rows_look_like_headers Cleaner.plain_text_na
           [Some (CStr "Ticker"); Some (CStr "NaN"); Some (CStr "DATE")]
           ["a"; "b"; "c"] eq_refl).
  intros s [E | [E | [E | []]]]; injection E as <-; discriminate.
Defined.

Lemma texts_from_nth (tx : Text) (row : list (option cell)) :
  forall (start j : nat) (x : option cell),
    nth_error row j = Some x ->
    In (option_map (Cleaner.lower tx) (Cleaner.cell_text tx (start + j) x))
       (Cleaner.texts_from tx start row).
Proof.
  induction row as [|y row IH]; intros start j x H.
  - destruct j; discriminate.
  - destruct j as [|j]; simpl in H.
    + injection H as ->. rewrite Nat.add_0_r. left. reflexivity.
    + right. replace (start + S j)%nat with (S start + j)%nat by lia.
      apply IH. exact H.
Qed.

Lemma digit_is_no_word_char (c : ascii) :
  is_digit c = true -> Cleaner.is_word_char c = false.
Proof.
  unfold is_digit, Cleaner.is_word_char. intro H.
  apply andb_prop in H. destruct H as [_ H]. apply Nat.leb_le in H.
  destruct (Nat.leb_spec 97 (nat_of_ascii c)); [lia|].
  destruct (Nat.eqb_spec (nat_of_ascii c) 95); [lia | reflexivity].
Qed.

Lemma has_digit_no_word (s : string) :
  has_digit s = true -> Cleaner.fullmatch_word s = false.
Proof.
  unfold has_digit, Cleaner.fullmatch_word. intro H.
  apply existsb_exists in H. destruct H as (c & Hc & Hd).
  destruct s; [reflexivity|].
  destruct (forallb Cleaner.is_word_char _) eqn:F; [|reflexivity].
  rewrite forallb_forall in F. pose proof (F c Hc) as W.
  rewrite (digit_is_no_word_char c Hd) in W. discriminate.
Qed.

Lemma has_digit_no_token (s : string) :
  has_digit s = true -> Cleaner.is_token s = false.
Proof.
  intro H. destruct (Cleaner.is_token s) eqn:T; [|reflexivity].
  unfold Cleaner.is_token, Cleaner._METADATA_TOKENS in T. cbn [existsb] in T.
  destruct (String.eqb_spec s "ticker") as [E|_]; [rewrite E in H; discriminate|].
  destruct (String.eqb_spec s "date") as [E|_]; [rewrite E in H; discriminate|].
  destruct (String.eqb_spec s "nan") as [E|_]; [rewrite E in H; discriminate|].
  destruct (String.eqb_spec s "") as [E|_]; [rewrite E in H|]; discriminate.
Qed.

Lemma forallb_fails {A : Type} (p : A -> bool) (l : list A) (x : A) :
  In x l -> p x = false -> forallb p l = false.
Proof.
  intros Hx Hp. destruct (forallb p l) eqn:F; [|reflexivity].
  rewrite forallb_forall in F. rewrite (F x Hx) in Hp. discriminate.
Qed.

(** X19. A data row with a number in it survives cleaning: if a cell of the
    row holds a number whose text has a digit, and the row does not repeat
    the column names, [_clean] keeps the row. *)
Theorem clean_keeps_row_with_number (tx : Text) (df : Cleaner.table)
  (row : list (option cell)) (j : nat) (q : Q)
  (Hr : In row (Cleaner.rows df))
  (Hj : nth_error row j = Some (Some (CNum q)))
  (Hd : has_digit (Cleaner.lower tx (num_text tx j q)) = true)
  (Hh : Cleaner.strings_eqb (Cleaner.row_str tx row)
          (map (Cleaner.lower tx) (Cleaner.columns df)) = false) :
  In row (Cleaner.rows (Cleaner._clean tx df)).
Proof.
  pose proof (texts_from_nth tx row 0 j _ Hj) as T.
  cbn [Nat.add Cleaner.cell_text option_map] in T.
  fold (Cleaner.row_str tx row) in T.
  assert (V : In row (filter Cleaner.has_value (Cleaner.rows df))).
  { apply filter_In. split; [exact Hr|].
    unfold Cleaner.has_value. apply existsb_exists.
    exists (Some (CNum q)). split; [|reflexivity].
    apply (nth_error_In _ _ Hj). }
  rewrite clean_some_value by (intro E; rewrite E in V; exact V).
  cbn [Cleaner.rows]. apply filter_In. split; [exact V|].
  unfold Cleaner.is_metadata, Cleaner._looks_like_header. rewrite Hh.
  rewrite (forallb_fails _ _ _ T (has_digit_no_word _ Hd)).
  rewrite (forallb_fails _ _ _ T (has_digit_no_token _ Hd)).
  reflexivity.
Qed.

Lemma clean_keeps_row_with_number_witness :
  In [Some (CNum 20); Some (CStr "red")]
     (Cleaner.rows
        (Cleaner._clean Cleaner.plain_text
           (Cleaner.mkTable ["age"; "color"]
              [[Some (CStr "age"); Some (CStr "color")];
               [Some (CNum 20); Some (CStr "red")]]))).
Proof.
  apply (clean_keeps_row_with_number Cleaner.plain_text
           (Cleaner.mkTable ["age"; "color"]
              [[Some (CStr "age"); Some (CStr "color")];
               [Some (CNum 20); Some (CStr "red")]])
           [Some (CNum 20); Some (CStr "red")] 0 20%Q).
  - right. left. reflexivity.
  - reflexivity.
  - reflexivity.
  - reflexivity.
Defined.

Lemma letter_is_ascii (c : ascii) :
  is_letter_or_underscore c = true -> Cleaner.is_ascii c = true.
Proof.
  destruct c as [[] [] [] [] [] [] [] []]; vm_compute; intro H;
    solve [reflexivity | discriminate].
Qed.

Lemma lower_letter_is_word_char (c : ascii) :
  is_letter_or_underscore c = true ->
  Cleaner.is_word_char (Cleaner.lower_ascii c) = true.
Proof.
  destruct c as [[] [] [] [] [] [] [] []]; vm_compute; intro H;
    solve [reflexivity | discriminate].
Qed.

Lemma chars_map_string (f : ascii -> ascii) (s : string) :
  list_ascii_of_string (Cleaner.map_string f s)
  = map f (list_ascii_of_string s).
Proof. induction s as [|c s IH]; simpl; [reflexivity | rewrite IH; reflexivity]. Qed.

Lemma wordy_cell_reads_as_word (tx : Text) (j : nat) (x : option cell) :
  wordy_cell tx x = true ->
  Cleaner.str_test Cleaner.fullmatch_word
    (option_map (Cleaner.lower tx) (Cleaner.cell_text tx j x)) = true.
Proof.
  destruct x as [[q|s]|]; simpl; intro H.
  - discriminate.
  - apply andb_prop in H. destruct H as [Hn Hl].
    rewrite forallb_forall in Hl.
    unfold Cleaner.lower.
    assert (A : forallb Cleaner.is_ascii (list_ascii_of_string s) = true).
    { apply forallb_forall. intros c Hc. apply letter_is_ascii. apply Hl. exact Hc. }
    rewrite A.
    destruct s as [|c s]; [discriminate|].
    unfold Cleaner.fullmatch_word. cbn [Cleaner.map_string].
    change (String (Cleaner.lower_ascii c) (Cleaner.map_string Cleaner.lower_ascii s))
      with (Cleaner.map_string Cleaner.lower_ascii (String c s)).
    rewrite chars_map_string. apply forallb_forall. intros d Hd.
    apply in_map_iff in Hd. destruct Hd as (e & <- & He).
    apply lower_letter_is_word_char. apply Hl. exact He.
  - rewrite H. reflexivity.
Qed.

Lemma wordy_row_reads_as_words (tx : Text) (row : list (option cell)) :
  forallb (wordy_cell tx) row = true ->
  forall start,
    forallb (Cleaner.str_test Cleaner.fullmatch_word)
      (Cleaner.texts_from tx start row) = true.
Proof.
  induction row as [|x row IH]; simpl; intros H start; [reflexivity|].
  apply andb_prop in H. destruct H as [Hx Hr].
  rewrite (wordy_cell_reads_as_word tx start x Hx). simpl.
  apply IH. exact Hr.
Qed.

Lemma wordy_row_is_metadata (tx : Text) (names : list string)
  (row : list (option cell)) :
  forallb (wordy_cell tx) row = true -> Cleaner.is_metadata tx names row = true.
Proof.
  intro H. unfold Cleaner.is_metadata, Cleaner._looks_like_header.
  destruct (Cleaner.strings_eqb _ _); [reflexivity|].
  unfold Cleaner.row_str. rewrite (wordy_row_reads_as_words tx row H 0).
  reflexivity.
Qed.

Lemma clean_drops_rows_of_words_aux (tx : Text) (df : Cleaner.table)
  (row : list (option cell)) :
  forallb (wordy_cell tx) row = true ->
  ~ In row (Cleaner.rows (Cleaner._clean tx df)).
Proof.
  intros Hw H. apply cleaned_rows_subset in H. destruct H as (_ & _ & M).
  rewrite (wordy_row_is_metadata tx _ row Hw) in M. discriminate.
Qed.

(** X20. [_clean] drops every row made only of words: a row each of whose
    cells is a non-empty string of ASCII letters and underscores (in either
    case), or is missing where [astype(str)] writes a missing cell as
    [nan], is not in the cleaned table, data row or not. *)
Theorem clean_drops_rows_of_words (tx : Text) (df : Cleaner.table)
  (row : list (option cell))
  (Hw : forallb (wordy_cell tx) row = true) :
  ~ In row (Cleaner.rows (Cleaner._clean tx df)).
Proof.
  intro H. apply cleaned_rows_subset in H. destruct H as (_ & _ & M).
  rewrite (wordy_row_is_metadata tx _ row Hw) in M. discriminate.
Qed.

Lemma clean_drops_rows_of_words_witness :
  ~ In [Some (CStr "Alice"); Some (CStr "red")]
       (Cleaner.rows
          (Cleaner._clean Cleaner.plain_text_na
             (Cleaner.mkTable ["name"; "color"]
                [[Some (CStr "Alice"); Some (CStr "red")]]))).
Proof.
  apply (clean_drops_rows_of_words Cleaner.plain_text_na
           (Cleaner.mkTable ["name"; "color"]
              [[Some (CStr "Alice"); Some (CStr "red")]])
           [Some (CStr "Alice"); Some (CStr "red")] eq_refl).
Defined.

Lemma no_member_is_nil {A : Type} (l : list A) :
  (forall x, ~ In x l) -> l = [].
Proof.
  destruct l as [|x l]; [reflexivity|].
  intro H. exfalso. apply (H x). left. reflexivity.
Qed.

Lemma columns_from_no_rows (names : list string) :
  forall j, Cleaner.columns_from j names [] = map (fun c => (c, [])) names.
Proof.
  induction names as [|c names IH]; intro j; simpl; [reflexivity|].
  rewrite IH. reflexivity.
Qed.

Lemma getitem_empty_column (names : list string) (c : string) (n : nat) :
  NoDup names -> In c names ->
  Profiler.getitem (Profiler.mkFrame n (map (fun c => (c, [])) names)) c
  = Ok [].
Proof.
  unfold Profiler.getitem. cbn [Profiler.data].
  induction names as [|k names IH]; simpl; intros Hn Hi; [contradiction|].
  inversion Hn as [|? ? Hk Hn']; subst.
  destruct (String.eqb_spec k c) as [E|E].
  - subst k. rewrite filter_label_absent; [reflexivity|].
    rewrite map_map. simpl. rewrite map_id. exact Hk.
  - destruct Hi as [Hi|Hi]; [contradiction|]. apply IH; assumption.
Qed.

Lemma cleaned_columns_spec (tx : Text) (df : Cleaner.table) :
  Cleaner.columns (Cleaner._clean tx df) = cleaned_columns df.
Proof.
  unfold cleaned_columns.
  destruct (existsb Cleaner.has_value (Cleaner.rows df)) eqn:E.
  - rewrite clean_some_value; [reflexivity|].
    intro F. apply filter_nil_existsb in F. congruence.
  - apply filter_nil_existsb in E. rewrite (clean_no_value tx df E).
    reflexivity.
Qed.

(** X21. A table with nothing but words in it is profiled as empty: when
    every cell of every row reads as a word (a non-empty string of ASCII
    letters and underscores, or a missing cell where [astype(str)] writes it
    as [nan]), cleaning leaves no row, and the schema, for distinct column
    names, has [num_rows] 0; it types every column as text, not nullable,
    when a row of the table has a value, and has no column at all when none
    has. *)
Theorem profile_table_of_words (pd : Pandas) (tx : Text) (df : Cleaner.table)
  (Hw : Forall (fun r => forallb (wordy_cell tx) r = true) (Cleaner.rows df))
  (Hn : NoDup (Cleaner.columns df)) :
  Cleaner.rows (Cleaner._clean tx df) = []
  /\ Cleaner.profile_table pd tx df
     = Ok [("columns", JArr (map empty_text_descriptor (cleaned_columns df)));
           ("num_rows", JNum 0)].
Proof.
  assert (E : Cleaner.rows (Cleaner._clean tx df) = []).
  { apply no_member_is_nil. intros r Hr.
    assert (I : In r (Cleaner.rows df)) by (apply (cleaned_rows_subset tx df r Hr)).
    rewrite Forall_forall in Hw.
    apply (clean_drops_rows_of_words_aux tx df r (Hw r I) Hr). }
  split; [exact E|].
  assert (Hc : NoDup (cleaned_columns df)).
  { unfold cleaned_columns. destruct (existsb _ _); [exact Hn | constructor]. }
  unfold Cleaner.profile_table, Cleaner.frame_of.
  rewrite E, cleaned_columns_spec.
  rewrite columns_from_no_rows.
  unfold Profiler.profile, Profiler.labels. cbn [Profiler.data Profiler.index_len].
  rewrite map_map. cbn [fst]. rewrite map_id.
  rewrite (map_exc_total _
             (fun c => [("name", JStr c); ("type", JStr "text");
                        ("nullable", JBool false)])).
  - cbn [bind List.length]. rewrite map_map. reflexivity.
  - intros c Hi. unfold Profiler._profile_column.
    rewrite (getitem_empty_column (cleaned_columns df) c _ Hc Hi).
    reflexivity.
Qed.

(** A table of names and colours, and a table of missing cells only. *)
Lemma profile_table_of_words_witness :
  Cleaner.profile_table Iso.pandas Cleaner.plain_text_na
    (Cleaner.mkTable ["name"; "color"]
       [[Some (CStr "Alice"); Some (CStr "red")];
        [Some (CStr "Bob"); Some (CStr "blue")]])
  = Ok [("columns", JArr [empty_text_descriptor "name";
                          empty_text_descriptor "color"]);
        ("num_rows", JNum 0)]
  /\ Cleaner.profile_table Iso.pandas Cleaner.plain_text
       (Cleaner.mkTable ["name"; "color"] [[None; None]; [None; None]])
     = Ok [("columns", JArr []); ("num_rows", JNum 0)].
Proof.
  split.
  - apply (proj2 (profile_table_of_words Iso.pandas Cleaner.plain_text_na
                    (Cleaner.mkTable ["name"; "color"]
                       [[Some (CStr "Alice"); Some (CStr "red")];
                        [Some (CStr "Bob"); Some (CStr "blue")]])
                    ltac:(repeat constructor)
                    ltac:(repeat constructor; simpl; intuition discriminate))).
  - apply (proj2 (profile_table_of_words Iso.pandas Cleaner.plain_text
                    (Cleaner.mkTable ["name"; "color"]
                       [[None; None]; [None; None]])
                    ltac:(repeat constructor)
                    ltac:(repeat constructor; simpl; intuition discriminate))).
Defined.

(** ** Profiling a CSV file *)

Lemma col_label_inj (i j : nat) :
  ProfileCsv.col_label i = ProfileCsv.col_label j -> i = j.
Proof.
  unfold ProfileCsv.col_label. intro H.
  simpl in H. injection H as H.
  apply DecimalNat.Unsigned.to_uint_inj.
  pose proof (NilEmpty.usu (Nat.to_uint i)) as A.
  pose proof (NilEmpty.usu (Nat.to_uint j)) as B.
  rewrite H in A. rewrite A in B. injection B as B. exact B.
Qed.

Lemma col_labels_distinct (k : nat) :
  NoDup (map ProfileCsv.col_label (seq 0 k)).
Proof.
  apply Injective_map_NoDup; [|apply seq_NoDup].
  intros i j. apply col_label_inj.
Qed.

Lemma columns_from_labels (names : list string)
  (rs : list (list (option cell))) :
  forall j, map fst (Cleaner.columns_from j names rs) = names.
Proof.
  induction names as [|c names IH]; intro j; simpl; [reflexivity|].
  rewrite IH. reflexivity.
Qed.

Lemma profile_returns_named (pd : Pandas) (df : Profiler.frame) :
  NoDup (Profiler.labels df) ->
  exists doc,
    Profiler.profile pd df = Ok doc
    /\ map col_name (descriptors doc) = map JStr (Profiler.labels df).
Proof.
  intro Hn.
  destruct (map_exc_returns (Profiler._profile_column pd df) (Profiler.labels df))
    as (ds & R).
  { intros col Hc.
    destruct (getitem_unique_label df col Hn Hc) as (s & Hs).
    destruct (profile_column_cases pd df col s Hs) as (extra & E & _).
    eexists. exact E. }
  eexists. split; [unfold Profiler.profile; rewrite R; reflexivity|].
  change (descriptors _) with (map JObj ds). rewrite map_map.
  apply (map_exc_pointwise (Profiler._profile_column pd df)
           (fun d => col_name (JObj d)) JStr _ _); [|exact R].
  intros x y _ E. apply (proj1 (profile_column_name pd df x y E)).
Qed.

(** X22. A file that [pd.read_csv] reads, with [header=0], as a table
    without any row (a header line and nothing else) cannot be profiled with
    header detection: [profile_csv] raises [IndexError] when it looks at the
    first row. *)
Theorem profile_csv_without_rows (pd : Pandas) (tx : Text)
  (read_csv : bool -> exc Cleaner.table) (df : Cleaner.table)
  (Hr : read_csv true = Ok df)
  (He : Cleaner.rows df = []) :
  ProfileCsv.profile_csv pd tx read_csv false = Raise IndexError.
Proof.
  unfold ProfileCsv.profile_csv. rewrite Hr. cbn [bind].
  unfold ProfileCsv.iloc0. rewrite He. reflexivity.
Qed.

Lemma profile_csv_without_rows_witness :
  ProfileCsv.profile_csv Iso.pandas Cleaner.plain_text
    (fun header =>
       if header then Ok (Cleaner.mkTable ["age"; "color"] [])
       else Ok (Cleaner.mkTable ["0"; "1"]
                  [[Some (CStr "age"); Some (CStr "color")]]))
    false
  = Raise IndexError.
Proof.
  apply (profile_csv_without_rows Iso.pandas Cleaner.plain_text _
           (Cleaner.mkTable ["age"; "color"] []) eq_refl eq_refl).
Defined.

(** X23. With [force_no_header], a file that [pd.read_csv] reads as a table
    of [k] columns is always profiled: [profile_csv] returns a schema whose
    columns are named [col_0] to [col_(k-1)], in this order, when a row of
    the table has a value, and a schema without columns when none has. *)
Theorem profile_csv_forced_headerless (pd : Pandas) (tx : Text)
  (read_csv : bool -> exc Cleaner.table) (df : Cleaner.table)
  (Hr : read_csv false = Ok df) :
  exists doc,
    ProfileCsv.profile_csv pd tx read_csv true = Ok doc
    /\ map col_name (descriptors doc)
       = if existsb Cleaner.has_value (Cleaner.rows df)
         then map (fun i => JStr (ProfileCsv.col_label i))
                  (seq 0 (List.length (Cleaner.columns df)))
         else [].
Proof.
  unfold ProfileCsv.profile_csv. rewrite Hr. cbn [bind].
  unfold Cleaner.profile_table.
  set (fr := Cleaner.frame_of (Cleaner._clean tx (ProfileCsv.rename_columns df))).
  assert (L : Profiler.labels fr
              = if existsb Cleaner.has_value (Cleaner.rows df)
                then map ProfileCsv.col_label
                       (seq 0 (List.length (Cleaner.columns df)))
                else []).
  { unfold fr, Cleaner.frame_of, Profiler.labels. cbn [Profiler.data].
    rewrite columns_from_labels, cleaned_columns_spec. reflexivity. }
  destruct (profile_returns_named pd fr) as (doc & R & N).
  { rewrite L. destruct (existsb _ _); [apply col_labels_distinct | constructor]. }
  exists doc. split; [exact R|]. rewrite N, L.
  destruct (existsb _ _); [rewrite map_map|]; reflexivity.
Qed.

(** A file of two data rows, and a file of one row of two missing cells. *)
Lemma profile_csv_forced_headerless_witness :
  (exists doc,
      ProfileCsv.profile_csv Iso.pandas Cleaner.plain_text
        (fun _ => Ok (Cleaner.mkTable ["0"; "1"]
                        [[Some (CNum 20); Some (CStr "red")];
                         [Some (CNum 30); Some (CStr "blue")]]))
        true = Ok doc
      /\ map col_name (descriptors doc) = [JStr "col_0"; JStr "col_1"])
  /\ (exists doc,
        ProfileCsv.profile_csv Iso.pandas Cleaner.plain_text
          (fun _ => Ok (Cleaner.mkTable ["0"; "1"] [[None; None]]))
          true = Ok doc
        /\ map col_name (descriptors doc) = []).
Proof.
  split.
  - apply (profile_csv_forced_headerless Iso.pandas Cleaner.plain_text
             (fun _ => Ok (Cleaner.mkTable ["0"; "1"]
                             [[Some (CNum 20); Some (CStr "red")];
                              [Some (CNum 30); Some (CStr "blue")]]))
             (Cleaner.mkTable ["0"; "1"]
                [[Some (CNum 20); Some (CStr "red")];
                 [Some (CNum 30); Some (CStr "blue")]])
             eq_refl).
  - apply (profile_csv_forced_headerless Iso.pandas Cleaner.plain_text
             (fun _ => Ok (Cleaner.mkTable ["0"; "1"] [[None; None]]))
             (Cleaner.mkTable ["0"; "1"] [[None; None]])
             eq_refl).
Defined.
